(** * A shallow embedding of proxmox-backup-gui.py

    The GUI drives [proxmox-backup-client] through subprocesses.  This file
    embeds the non-graphical parts of [src/proxmox-backup-gui.py]: the
    profile data model, the argument vectors and environments handed to
    [subprocess], the streaming loop of [BackupWorker.run], the archive
    catalog refresh, the restore/mount file selection and the mount slot,
    the loading and saving of the config file, the editing of backup
    sources and [format_size].

    Conventions of the embedding:
    - Python [str] is [string]; a character is an [ascii] read as the
      code point 0..255 (Latin-1), so [str.strip] strips exactly the
      characters of that range for which [str.isspace] holds.
    - A Python [dict] whose insertion order is observed ([self.profiles],
      [os.environ]) is an association list, oldest key first.
    - Exceptions are the [Err] branch of [result]; a [try]/[except]
      block is a [match] on it.
    - The Qt widgets the code reads or writes (table, list selection,
      dialogs, message boxes) are fields of the GUI state or answers of a
      [UI] record; message boxes are recorded as [Effect]s, in order. *)

From Stdlib Require Import String Ascii List ZArith Bool Lia Sorting.Sorted Sorting.Permutation.
From Stdlib Require Import QArith Qpower.
Local Close Scope Q_scope.
Import ListNotations.
Open Scope string_scope.
#[local] Set Warnings "-register-all".

(* ------------------------------------------------------------------ *)
(** ** Python string helpers *)

Module Py.

(** [str.isspace] on a single code point of the Latin-1 range. *)
Definition is_space (c : ascii) : bool :=
  let n := nat_of_ascii c in
  ((9 <=? n) && (n <=? 13))%nat || ((28 <=? n) && (n <=? 32))%nat
  || (n =? 133)%nat || (n =? 160)%nat.

Fixpoint drop_while (p : ascii -> bool) (l : list ascii) : list ascii :=
  match l with
  | [] => []
  | c :: r => if p c then drop_while p r else l
  end.

Fixpoint take_while (p : ascii -> bool) (l : list ascii) : list ascii :=
  match l with
  | [] => []
  | c :: r => if p c then c :: take_while p r else []
  end.

(** [s.lstrip()] and [s.rstrip()] for a predicate on characters. *)
Definition lstrip_by (p : ascii -> bool) (s : string) : string :=
  string_of_list_ascii (drop_while p (list_ascii_of_string s)).

Definition rstrip_by (p : ascii -> bool) (s : string) : string :=
  string_of_list_ascii (rev (drop_while p (rev (list_ascii_of_string s)))).

(** [s.strip()] *)
Definition strip (s : string) : string := rstrip_by is_space (lstrip_by is_space s).

Definition is_slash (c : ascii) : bool := Ascii.eqb c "/"%char.

(** [s.rstrip('/')] *)
Definition rstrip_slash (s : string) : string := rstrip_by is_slash s.

(** [os.path.basename] (posixpath): [p[p.rfind('/') + 1:]]. *)
Definition basename (p : string) : string :=
  string_of_list_ascii
    (rev (take_while (fun c => negb (is_slash c)) (rev (list_ascii_of_string p)))).

(** [s.split('\n')]: the pieces between newlines; never empty. *)
Fixpoint split_nl_aux (cur : list ascii) (l : list ascii) : list string :=
  match l with
  | [] => [string_of_list_ascii (rev cur)]
  | c :: r =>
      if Ascii.eqb c "010"%char
      then string_of_list_ascii (rev cur) :: split_nl_aux [] r
      else split_nl_aux (c :: cur) r
  end.

Definition split_nl (s : string) : list string := split_nl_aux [] (list_ascii_of_string s).

(** [s.endswith(suf)] *)
Definition endswith (s suf : string) : bool :=
  let n := String.length s in
  let m := String.length suf in
  (m <=? n)%nat && String.eqb (substring (n - m) m s) suf.

(** [s.removesuffix(suf)] *)
Definition removesuffix (s suf : string) : string :=
  if (String.length suf =? 0)%nat then s
  else if endswith s suf then substring 0 (String.length s - String.length suf) s
  else s.

(** [s.lower()] on the ASCII letters. *)
Definition lower_char (c : ascii) : ascii :=
  let n := nat_of_ascii c in
  if ((65 <=? n) && (n <=? 90))%nat then ascii_of_nat (n + 32) else c.

Definition lower (s : string) : string :=
  string_of_list_ascii (map lower_char (list_ascii_of_string s)).

(** [' '.join(l)] *)
Definition join (sep : string) (l : list string) : string := String.concat sep l.

End Py.

(** Exceptions the modelled code can raise or catch. *)
Inductive exc :=
| KeyError | IndexError | TypeError | AttributeError | ValueError
| JSONDecodeError | OSError | OverflowError.

Inductive result (A : Type) :=
| Ok (a : A)
| Err (e : exc).
Arguments Ok {A} a.
Arguments Err {A} e.

Definition bind {A B} (m : result A) (k : A -> result B) : result B :=
  match m with Ok a => k a | Err e => Err e end.

Notation "'let?' x ':=' m 'in' k" := (bind m (fun x => k))
  (at level 200, x name, m at level 100, k at level 200).

(* ------------------------------------------------------------------ *)
(** ** Data model: [BackupSource], [BackupProfile] *)

Record BackupSource := mkSource {
  path : string;
  archive_type : string;
  exclusions : list string
}.

Record BackupProfile := mkProfile {
  name : string;
  repository : string;
  api_key : string;
  fingerprint : string;
  backup_sources : list BackupSource
}.

(** The dict returned by [get_current_config]. *)
Record Config := mkConfig {
  cfg_repository : string;
  cfg_api_key : string;
  cfg_fingerprint : string;
  cfg_backup_sources : list BackupSource
}.

Definition config_of (p : BackupProfile) : Config :=
  mkConfig p.(repository) p.(api_key) p.(fingerprint) p.(backup_sources).

(** Lookup in an insertion-ordered dict ([d[k]] raises [KeyError]). *)
Fixpoint assoc {V} (k : string) (d : list (string * V)) : option V :=
  match d with
  | [] => None
  | (k', v) :: r => if String.eqb k k' then Some v else assoc k r
  end.

Definition getitem {V} (d : list (string * V)) (k : string) : result V :=
  match assoc k d with Some v => Ok v | None => Err KeyError end.

(** [d[k] = v] on an insertion-ordered dict: an existing key keeps its place. *)
Fixpoint setitem {V} (d : list (string * V)) (k : string) (v : V) : list (string * V) :=
  match d with
  | [] => [(k, v)]
  | (k', v') :: r => if String.eqb k k' then (k', v) :: r else (k', v') :: setitem r k v
  end.

(* ------------------------------------------------------------------ *)
(** ** JSON values, as [json.loads] returns them

    Numbers are integers: the client's listings carry integral times and
    sizes. *)
Inductive json :=
| JNull
| JBool (b : bool)
| JNum (n : Z)
| JStr (s : string)
| JArr (l : list json)
| JObj (fields : list (string * json)).

(** [obj.get(k, default)]: [AttributeError] unless [obj] is a dict. *)
Definition json_get (o : json) (k : string) (default : json) : result json :=
  match o with
  | JObj fs => Ok (match assoc k fs with Some v => v | None => default end)
  | _ => Err AttributeError
  end.

(** [obj[k]] *)
Definition json_getitem (o : json) (k : string) : result json :=
  match o with
  | JObj fs => getitem fs k
  | JArr _ | JStr _ => Err TypeError
  | _ => Err TypeError
  end.

(* ------------------------------------------------------------------ *)
(** ** The archives table

    A cell records the values the code puts into it: the texts it
    formats, or the raw value where the code passes one to
    [QTableWidgetItem]. *)
Inductive cell :=
| CSnapshot (text : string) (data : json)
    (** column 0: ["{type}/{id}/{iso time}"], the archive kept as UserRole data *)
| CSize (size_str : string)
| CDate (timestamp : json)
    (** column 2: the local date text as [JStr], or the raw [backup-time] *)
| COwner (owner : json)
| CVerify (status : string).

(** A row of the five-column table ([setColumnCount(5)]). *)
Record row := mkRow { col0 : option cell; col1 : option cell; col2 : option cell;
                      col3 : option cell; col4 : option cell }.

Definition empty_row : row := mkRow None None None None None.

Definition table := list row.

(** [QTableWidget.setRowCount(n)]: rows beyond [n] are dropped, new rows
    are empty, surviving rows keep their items. *)
Definition set_row_count (n : nat) (t : table) : table :=
  app (firstn n t) (repeat empty_row (n - List.length t)).

Fixpoint replace_nth {A} (i : nat) (x : A) (l : list A) : list A :=
  match l, i with
  | [], _ => []
  | _ :: r, O => x :: r
  | y :: r, S i' => y :: replace_nth i' x r
  end.

Definition set_col (j : nat) (c : cell) (r : row) : row :=
  match j with
  | 0 => mkRow (Some c) r.(col1) r.(col2) r.(col3) r.(col4)
  | 1 => mkRow r.(col0) (Some c) r.(col2) r.(col3) r.(col4)
  | 2 => mkRow r.(col0) r.(col1) (Some c) r.(col3) r.(col4)
  | 3 => mkRow r.(col0) r.(col1) r.(col2) (Some c) r.(col4)
  | 4 => mkRow r.(col0) r.(col1) r.(col2) r.(col3) (Some c)
  | _ => r
  end.

(** [QTableWidget.setItem(i, j, item)] for a row [i] that exists. *)
Definition set_item (i j : nat) (c : cell) (t : table) : table :=
  replace_nth i (set_col j c (nth i t empty_row)) t.

(* ------------------------------------------------------------------ *)
(** ** GUI state and observable effects *)

Record GUI := mkGUI {
  profiles : list (string * BackupProfile);
  current_profile_name : option string;
  current_mount : option string;
  repo_edit : string;
  api_edit : string;
  fingerprint_edit : string;
  sources_row : Z;                  (** [sources_list.currentRow()] *)
  archives_table : table;
  archive_data : option (list json); (** [self.archive_data], unset at first *)
  environ : list (string * string)   (** [os.environ] *)
}.

(** What the user and the system can observe, in order. *)
(** Signals of [BackupWorker] ([command_ready], [progress], [finished]). *)
Inductive signal :=
| CommandReady (cmd : list string)
| Progress (msg : string)
| Finished (success : bool) (msg : string).

Inductive effect :=
| Spawn (argv : list string) (env : list (string * string))
| Terminate (argv : list string)      (** [process.terminate()] *)
| Warn (title msg : string)
| Inform (title msg : string)
| Emit (s : signal)                   (** a worker signal, delivered in order *)
| SaveConfig (ps : list (string * BackupProfile)).  (** [yaml.dump] of the profiles *)

Definition spawns (es : list effect) : list (list string * list (string * string)) :=
  flat_map (fun e => match e with Spawn a v => [(a, v)] | _ => [] end) es.

(** Python truthiness of [self.current_profile_name] and of strings. *)
Definition truthy (s : string) : bool := negb (String.eqb s "").

Definition truthy_opt (o : option string) : bool :=
  match o with Some s => truthy s | None => false end.

(** [ProxmoxBackupGUI.get_current_config]: [None] stands for [{}]. *)
Definition get_current_config (g : GUI) : result (option Config) :=
  match g.(current_profile_name) with
  | Some n =>
      if truthy n then let? p := getitem g.(profiles) n in Ok (Some (config_of p))
      else Ok None
  | None => Ok None
  end.

(** [config['key']] on the returned dict: [{}] raises [KeyError]. *)
Definition need_config (c : option Config) : result Config :=
  match c with Some cfg => Ok cfg | None => Err KeyError end.

(* ------------------------------------------------------------------ *)
(** ** [BackupWorker.get_backup_command] *)

(** [f"{dir_name}.{source.archive_type}:{source.path}"] *)
Definition source_arg (s : BackupSource) : string :=
  let dir_name := Py.basename (Py.rstrip_slash s.(path)) in
  dir_name ++ "." ++ s.(archive_type) ++ ":" ++ s.(path).

Definition get_backup_command (g : GUI) : result (list string) :=
  let? c := get_current_config g in
  let? config := need_config c in
  let cmd :=
    fold_left
      (fun cmd source =>
         fold_left (fun cmd exclusion => app cmd ["--exclude=" ++ exclusion])
           source.(exclusions) (app cmd [source_arg source]))
      config.(cfg_backup_sources) ["proxmox-backup-client"; "backup"] in
  Ok (app cmd ["--repository"; config.(cfg_repository)]).

(* ------------------------------------------------------------------ *)
(** ** Library functions and the operating system

    Python library behaviour the GUI relies on but does not define. *)
Record Lib := mkLib {
  json_loads : string -> result json;   (** [json.loads]; [JSONDecodeError] *)
  str_json : json -> string;            (** [f"{v}"] of a decoded JSON value *)
  utc_ok : Z -> bool;                   (** [datetime.fromtimestamp(t, tz=utc)] does not raise *)
  utc_iso : Z -> string;                (** [... .strftime("%Y-%m-%dT%H:%M:%SZ")] *)
  str_exc : exc -> string;              (** [str(e)] *)
  local_dt : Z -> result string;
    (** [datetime.fromtimestamp(t).strftime('%Y-%m-%d %H:%M:%S')] in local
        time, or the exception it raises *)
  fmt2 : Q -> string;                   (** [f"{v:.2f}"] *)
  qt_scalar : json -> result unit;
    (** [QTableWidgetItem(v)] for [v] None, an int or a bool: which
        constructor PyQt picks, or the [TypeError] it raises *)
  write_config : list (string * BackupProfile) -> result unit
    (** [mkdir], [chmod], [open] and [yaml.dump] of the config file with
        these profiles: [Ok] when all succeed, else the exception *)
}.

(** The result of [subprocess.run(..., capture_output=True, text=True)]. *)
Record Completed := mkCompleted { returncode : Z; stdout : string; stderr : string }.

(** A child started by [subprocess.Popen]: the chunks [readline] returns
    (each non-empty), the number of [poll()] calls that still answer
    [None], its exit code and its standard-error text. *)
Record Child := mkChild { c_lines : list string; c_alive : nat; c_code : Z; c_err : string }.

Record Sys := mkSys {
  run : list string -> list (string * string) -> result Completed;  (** [OSError] if it cannot start *)
  popen : list string -> list (string * string) -> result Child
}.

(* ------------------------------------------------------------------ *)
(** ** A state, effect and exception monad for the GUI methods

    An exception leaves the state as far as it got: mutations done
    before the raise stay. *)
Definition M (A : Type) := GUI -> GUI * list effect * result A.

Definition ret {A} (a : A) : M A := fun g => (g, [], Ok a).

Definition mbind {A B} (m : M A) (k : A -> M B) : M B := fun g =>
  match m g with
  | (g1, es1, Ok a) => let '(g2, es2, r) := k a g1 in (g2, app es1 es2, r)
  | (g1, es1, Err e) => (g1, es1, Err e)
  end.

Notation "x <- m ;; k" := (mbind m (fun x => k))
  (at level 61, m at next level, right associativity).
Notation "m ;;; k" := (mbind m (fun _ => k)) (at level 61, right associativity).

Definition lift {A} (r : result A) : M A := fun g => (g, [], r).
Definition raise {A} (e : exc) : M A := lift (Err e).
Definition get : M GUI := fun g => (g, [], Ok g).
Definition modify (f : GUI -> GUI) : M unit := fun g => (f g, [], Ok tt).
Definition emit (e : effect) : M unit := fun g => (g, [e], Ok tt).
Definition skip : M unit := ret tt.

(** [try: m except Exception as e: h(e)] *)
Definition try_except {A} (m : M A) (h : exc -> M A) : M A := fun g =>
  match m g with
  | (g1, es1, Err e) => let '(g2, es2, r) := h e g1 in (g2, app es1 es2, r)
  | ok => ok
  end.

(** [for x in l: body(i, x)] with [enumerate] *)
Fixpoint for_enum {A} (i : nat) (l : list A) (body : nat -> A -> M unit) : M unit :=
  match l with
  | [] => skip
  | x :: r => body i x ;;; for_enum (S i) r body
  end.

(** [subprocess.run(cmd, env=env)]: the spawn is observable even when it
    fails to start. *)
Definition run_proc (sys : Sys) (cmd : list string) (env : list (string * string))
  : M Completed :=
  emit (Spawn cmd env) ;;; lift (sys.(run) cmd env).

Definition set_state_table (t : table) (g : GUI) : GUI :=
  mkGUI g.(profiles) g.(current_profile_name) g.(current_mount) g.(repo_edit)
    g.(api_edit) g.(fingerprint_edit) g.(sources_row) t g.(archive_data) g.(environ).

Definition set_state_data (d : list json) (g : GUI) : GUI :=
  mkGUI g.(profiles) g.(current_profile_name) g.(current_mount) g.(repo_edit)
    g.(api_edit) g.(fingerprint_edit) g.(sources_row) g.(archives_table) (Some d) g.(environ).

Definition set_state_mount (m : option string) (g : GUI) : GUI :=
  mkGUI g.(profiles) g.(current_profile_name) m g.(repo_edit)
    g.(api_edit) g.(fingerprint_edit) g.(sources_row) g.(archives_table) g.(archive_data)
    g.(environ).

Definition set_state_profiles (ps : list (string * BackupProfile)) (g : GUI) : GUI :=
  mkGUI ps g.(current_profile_name) g.(current_mount) g.(repo_edit)
    g.(api_edit) g.(fingerprint_edit) g.(sources_row) g.(archives_table) g.(archive_data)
    g.(environ).

(** [sources_list.currentRow()] after the user selects row [r]; the
    [sources_list.clear()] of [update_sources_list] sets it to [-1]. *)
Definition set_state_row (r : Z) (g : GUI) : GUI :=
  mkGUI g.(profiles) g.(current_profile_name) g.(current_mount) g.(repo_edit)
    g.(api_edit) g.(fingerprint_edit) r g.(archives_table) g.(archive_data)
    g.(environ).

Definition set_item_st (i j : nat) (c : cell) : M unit :=
  modify (fun g => set_state_table (set_item i j c g.(archives_table)) g).

(** [env = dict(os.environ); env['PBS_PASSWORD'] = config['api_key']] *)
Definition password_env (g : GUI) (config : Config) : list (string * string) :=
  setitem g.(environ) "PBS_PASSWORD" config.(cfg_api_key).

(* ------------------------------------------------------------------ *)
(** ** [ProxmoxBackupGUI.refresh_archives] *)

(** A JSON value Python compares and converts as a number. *)
Definition num_of (v : json) : option Z :=
  match v with
  | JNum n => Some n
  | JBool b => Some (if b then 1 else 0)%Z
  | _ => None
  end.

(** [x.get('backup-time', 0)], the sort key. *)
Definition sort_key (x : json) : result json := json_get x "backup-time" (JNum 0).

(** Stable insertion into a list sorted by decreasing key: [x] goes in
    front of the first element whose key is not greater. *)
Fixpoint insert_desc (key : json -> Z) (x : json) (l : list json) : list json :=
  match l with
  | [] => [x]
  | y :: r => if (key y <=? key x)%Z then x :: l else y :: insert_desc key x r
  end.

Fixpoint sort_desc (key : json -> Z) (l : list json) : list json :=
  match l with
  | [] => []
  | x :: r => insert_desc key x (sort_desc key r)
  end.

Definition key_num (x : json) : Z :=
  match sort_key x with
  | Ok v => match num_of v with Some n => n | None => 0%Z end
  | Err _ => 0%Z
  end.

(** Python's [<] on two strs: characters compared in order (byte order
    is code-point order, also for UTF-8), a proper prefix first. *)
Fixpoint str_lt (a b : string) : bool :=
  match a, b with
  | EmptyString, String _ _ => true
  | String c a', String d b' =>
      if (nat_of_ascii c <? nat_of_ascii d)%nat then true
      else if (nat_of_ascii c =? nat_of_ascii d)%nat then str_lt a' b' else false
  | _, _ => false
  end.

Definition key_str (x : json) : string :=
  match sort_key x with Ok (JStr s) => s | _ => EmptyString end.

(** [insert_desc] for str keys. *)
Fixpoint insert_desc_str (x : json) (l : list json) : list json :=
  match l with
  | [] => [x]
  | y :: r => if negb (str_lt (key_str x) (key_str y)) then x :: l
              else y :: insert_desc_str x r
  end.

Fixpoint sort_desc_str (l : list json) : list json :=
  match l with
  | [] => []
  | x :: r => insert_desc_str x (sort_desc_str r)
  end.

(** [archives.sort(key=lambda x: x.get('backup-time', 0), reverse=True)]:
    [list.sort] is stable, also with [reverse=True].  Every key is
    computed first ([AttributeError] for a non-dict); keys are compared
    only when there are two or more.  Numbers (ints and bools) compare
    with numbers and strs with strs; a mix of the two, or a [None] or dict
    key, makes some comparison raise [TypeError] (a sort that never
    compared across the two kinds could not order them).  Two or more keys
    that are all JSON arrays, which Python compares element by element,
    are treated as raising too. *)
Definition sort_archives (archives : json) : result (list json) :=
  match archives with
  | JArr l =>
      let? keys := fold_right (fun x acc => let? k := sort_key x in
                                            let? ks := acc in Ok (k :: ks)) (Ok []) l in
      if (List.length l <=? 1)%nat then Ok l
      else if forallb (fun k => match num_of k with Some _ => true | None => false end) keys
      then Ok (sort_desc key_num l)
      else if forallb (fun k => match k with JStr _ => true | _ => false end) keys
      then Ok (sort_desc_str l)
      else Err TypeError
  | JObj _ | JStr _ => Err AttributeError    (* no [.sort] method *)
  | _ => Err AttributeError
  end.

(** The verification column: [archive.get('verification', {}).get('state', 'none')],
    lower-cased, and anything but ['ok'] or ['none'] becomes ['none']. *)
Definition verify_status (archive : json) : result string :=
  let? v := json_get archive "verification" (JObj []) in
  let? st := json_get v "state" (JStr "none") in
  match st with
  | JStr s =>
      let status := Py.lower s in
      if String.eqb status "ok" || String.eqb status "none" then Ok status else Ok "none"
  | _ => Err AttributeError    (* no [.lower] *)
  end.

(** [format_size]: the loop of [for unit in ['B', 'KB', 'MB', 'GB', 'TB']:
    if size_bytes < 1024.0: return ...; size_bytes /= 1024.0], on the
    exact values of the floats it computes. *)
Fixpoint format_size_loop (units : list string) (size_bytes : Q) : Q * string :=
  match units with
  | [] => (size_bytes, "PB")
  | unit :: rest =>
      if negb (Qle_bool 1024 size_bytes) then (size_bytes, unit)
      else format_size_loop rest (size_bytes / 1024)%Q
  end.

(** [float(n)] for [n > 0], as an integer: [n] rounded to 53 significant
    bits, ties to even. *)
Definition float_of_int (n : Z) : Z :=
  let e := Z.log2 n in
  if (e <? 53)%Z then n
  else
    let sh := (e - 52)%Z in
    let q := Z.shiftr n sh in
    let rem := (n - Z.shiftl q sh)%Z in
    let half := Z.shiftl 1 (sh - 1) in
    let q' := if (half <? rem)%Z || ((rem =? half)%Z && Z.odd q) then (q + 1)%Z else q in
    Z.shiftl q' sh.

(** [format_size(size_bytes)] for an int (or bool) [size_bytes].  The
    first test compares the int itself; the first [/= 1024.0] converts it
    to a float ([OverflowError] when it rounds to [2^1024] or more), and
    dividing a float of at least [1024] by [1024.0] is exact. *)
Definition format_size (fmt2 : Q -> string) (size_bytes : Z) : result string :=
  if (size_bytes <? 1024)%Z then Ok (fmt2 (inject_Z size_bytes) ++ " B")
  else
    let f := float_of_int size_bytes in
    if (Z.pow 2 1024 <=? f)%Z then Err OverflowError
    else let '(v, unit) := format_size_loop ["B"; "KB"; "MB"; "GB"; "TB"] (inject_Z f) in
         Ok (fmt2 v ++ " " ++ unit).

(** [QTableWidgetItem(v)]: a str gives an item showing it; no constructor
    takes a list or a dict. *)
Definition qt_item (lib : Lib) (v : json) : result unit :=
  match v with
  | JStr _ => Ok tt
  | JArr _ | JObj _ => Err TypeError
  | _ => lib.(qt_scalar) v
  end.

(** The body of the [for i, archive in enumerate(archives)] loop. *)
Definition render_row (lib : Lib) (i : nat) (archive : json) : M unit :=
  backup_type <- lift (json_get archive "backup-type" (JStr "unknown")) ;;
  backup_id <- lift (json_get archive "backup-id" (JStr "unknown")) ;;
  backup_time_unix <- lift (json_get archive "backup-time" (JStr "")) ;;
  t <- lift (match num_of backup_time_unix with
             | Some t => if lib.(utc_ok) t then Ok t else Err ValueError
             | None => Err TypeError
             end) ;;
  let snapshot_path := lib.(str_json) backup_type ++ "/" ++ lib.(str_json) backup_id
                       ++ "/" ++ lib.(utc_iso) t in
  set_item_st i 0 (CSnapshot snapshot_path archive) ;;;
  size_bytes <- lift (json_get archive "size" (JNum 0)) ;;
  size_str <- lift (match num_of size_bytes with
                    | Some n => format_size lib.(fmt2) n
                    | None => Err TypeError    (* [size_bytes < 1024.0] *)
                    end) ;;
  set_item_st i 1 (CSize size_str) ;;;
  timestamp <- lift (json_get archive "backup-time" (JStr "Unknown")) ;;
  (* [try: dt = datetime.fromtimestamp(int(timestamp)) ...
      except (ValueError, TypeError): pass]; [timestamp] is the value
     that passed [fromtimestamp] above, so [int] accepts it *)
  timestamp <- lift (match num_of timestamp with
                     | Some t => match lib.(local_dt) t with
                                 | Ok s => Ok (JStr s)
                                 | Err (ValueError | TypeError) => Ok timestamp
                                 | Err e => Err e
                                 end
                     | None => Ok timestamp
                     end) ;;
  lift (qt_item lib timestamp) ;;;
  set_item_st i 2 (CDate timestamp) ;;;
  owner <- lift (json_get archive "owner" (JStr "Unknown")) ;;
  lift (qt_item lib owner) ;;;
  set_item_st i 3 (COwner owner) ;;;
  status <- lift (verify_status archive) ;;
  set_item_st i 4 (CVerify status).

Definition refresh_archives (lib : Lib) (sys : Sys) : M unit :=
  try_except
    (g <- get ;;
     c <- lift (get_current_config g) ;;
     config <- lift (need_config c) ;;
     let env := password_env g config in
     let cmd := ["proxmox-backup-client"; "snapshot"; "list";
                 "--repository"; config.(cfg_repository); "--output-format"; "json"] in
     result <- run_proc sys cmd env ;;
     if (result.(returncode) =? 0)%Z then
       archives <- lift (lib.(json_loads) result.(stdout)) ;;
       sorted <- lift (sort_archives archives) ;;
       modify (fun g => set_state_table
                          (set_row_count (List.length sorted) g.(archives_table)) g) ;;;
       modify (set_state_data sorted) ;;;
       for_enum 0 sorted (render_row lib)
     else skip)   (* error = result.stderr.strip(), not shown *)
    (fun e => emit (Warn "Error" ("Unexpected error when fetching archives: "
                                  ++ lib.(str_exc) e))).

(* ------------------------------------------------------------------ *)
(** ** [validate_config], [start_backup] *)

Definition validate_config (show_message : bool) : M bool :=
  g <- get ;;
  let warn msg := if show_message then emit (Warn "Error" msg) else skip in
  if negb (truthy_opt g.(current_profile_name)) then warn "No profile selected" ;;; ret false
  else
    profile <- lift (match g.(current_profile_name) with
                     | Some n => getitem g.(profiles) n | None => Err KeyError end) ;;
    if match profile.(backup_sources) with [] => true | _ => false end then
      warn "Please add at least one backup source" ;;; ret false
    else if negb (truthy profile.(repository)) then
      warn "Please configure repository in settings" ;;; ret false
    else if negb (truthy profile.(api_key)) then
      warn "Please configure API key in settings" ;;; ret false
    else ret true.

(** [start_backup]: answers whether the [BackupWorker] thread was started
    (its body is [worker_run] below). *)
Definition start_backup : M bool :=
  ok <- validate_config true ;;
  if ok then ret true else ret false.

(* ------------------------------------------------------------------ *)
(** ** [BackupWorker.run]: the streaming loop *)

(** [process.stdout.readline()]: the next chunk, [""] at end of file. *)
Definition readline (ch : Child) : string * Child :=
  match ch.(c_lines) with
  | l :: r => (l, mkChild r ch.(c_alive) ch.(c_code) ch.(c_err))
  | [] => ("", ch)
  end.

(** [process.poll()]: [None] while the child runs. *)
Definition poll (ch : Child) : option Z * Child :=
  match ch.(c_alive) with
  | O => (Some ch.(c_code), ch)
  | S n => (None, mkChild ch.(c_lines) n ch.(c_code) ch.(c_err))
  end.

Definition is_some {A} (o : option A) : bool := match o with Some _ => true | None => false end.

(** [while True: output = readline(); if output == '' and poll() is not None:
    break; if output: progress.emit(output.strip())], run for at most
    [fuel] iterations; [None] when the bound is reached first. *)
Fixpoint backup_read_loop (fuel : nat) (ch : Child) : M (option Child) :=
  match fuel with
  | O => ret None
  | S f =>
      let '(output, ch1) := readline ch in
      let '(stop, ch2) :=
        if String.eqb output "" then let '(r, ch2) := poll ch1 in (is_some r, ch2)
        else (false, ch1) in
      if stop then ret (Some ch2)
      else (if truthy output then emit (Emit (Progress (Py.strip output))) else skip) ;;;
           backup_read_loop f ch2
  end.

(** The environment of the backup child. *)
Definition backup_env (g : GUI) (config : Config) : list (string * string) :=
  let env := password_env g config in
  if truthy config.(cfg_fingerprint) then setitem env "PBS_FINGERPRINT" config.(cfg_fingerprint)
  else env.

Definition worker_run (lib : Lib) (sys : Sys) (fuel : nat) : M unit :=
  try_except
    (g <- get ;;
     c <- lift (get_current_config g) ;;
     config <- lift (need_config c) ;;
     let env := backup_env g config in
     cmd <- lift (get_backup_command g) ;;
     emit (Emit (CommandReady cmd)) ;;;
     emit (Emit (Progress ("Running command: " ++ Py.join " " cmd))) ;;;
     emit (Spawn cmd env) ;;;
     process <- lift (sys.(popen) cmd env) ;;
     r <- backup_read_loop fuel process ;;
     match r with
     | None => skip
     | Some process' =>
         let returncode := fst (poll process') in
         if match returncode with Some 0%Z => true | _ => false end
         then emit (Emit (Finished true "Backup completed successfully"))
         else emit (Emit (Finished false ("Backup failed: " ++ process'.(c_err))))
     end)
    (fun e => emit (Emit (Finished false ("Error: " ++ lib.(str_exc) e)))).

(* ------------------------------------------------------------------ *)
(** ** Answers of the dialogs an operation opens *)

Record UI := mkUI {
  selected_row : option nat;      (** row of [archives_table.selectedItems()[0]] *)
  dir_choice : string;            (** [QFileDialog.getExistingDirectory]; [""] if cancelled *)
  item_choice : list string -> nat -> option string;
    (** [QInputDialog.getItem(.., items, current, ..)]: [Some item] when OK *)
  confirm_yes : bool;             (** [QMessageBox.question] answered Yes *)
  cancel_from : option nat;       (** [progress.wasCanceled()] from this iteration on *)
  dialog_text : option string     (** exclusions dialog: [Some text] on Save *)
}.

(** [self.archives_table.item(row, 0).text()] *)
Definition item_text (g : GUI) (r : nat) : result string :=
  match nth_error g.(archives_table) r with
  | Some rw => match rw.(col0) with
               | Some (CSnapshot text _) => Ok text
               | Some _ => Err TypeError
               | None => Err AttributeError
               end
  | None => Err AttributeError
  end.

(** [[file["filename"].removesuffix(".didx") for file in files_data
      if file["filename"].endswith(".pxar.didx")]] *)
Fixpoint pxar_filter (files : list json) : result (list string) :=
  match files with
  | [] => Ok []
  | file :: r =>
      let? fname := json_getitem file "filename" in
      match fname with
      | JStr s =>
          let? rest := pxar_filter r in
          Ok (if Py.endswith s ".pxar.didx" then Py.removesuffix s ".didx" :: rest else rest)
      | _ => Err AttributeError
      end
  end.

Definition pxar_files_of (files_data : json) : result (list string) :=
  match files_data with
  | JArr l => pxar_filter l
  | JObj [] => Ok []
  | JStr "" => Ok []
  | _ => Err TypeError
  end.

(** The file-selection block shared by [restore_archive] and
    [mount_archive], inside its [try ... except json.JSONDecodeError];
    [None] means the operation returns. *)
Definition select_file (lib : Lib) (ui : UI) (out : string) : M (option string) :=
  try_except
    (files_data <- lift (lib.(json_loads) out) ;;
     pxar_files <- lift (pxar_files_of files_data) ;;
     match pxar_files with
     | [] => emit (Warn "Error" "No .pxar.didx files found in backup") ;;; ret None
     | [f] => ret (Some f)
     | f :: _ =>
         match ui.(item_choice) pxar_files 0 with
         | Some item => ret (Some item)
         | None => ret None
         end
     end)
    (fun e => match e with
              | JSONDecodeError => emit (Warn "Error" "Failed to parse snapshot data") ;;; ret None
              | _ => raise e
              end).

Definition files_cmd (backup_id : string) (config : Config) : list string :=
  ["proxmox-backup-client"; "snapshot"; "files"; backup_id;
   "--repository"; config.(cfg_repository); "--output-format"; "json"].

(* ------------------------------------------------------------------ *)
(** ** [restore_archive] *)

Inductive loop_end := LExited | LCancelled | LBound.

(** [while True: readline(); if poll() is not None: break;
    processEvents(); if progress.wasCanceled(): ...] *)
Fixpoint restore_loop (fuel : nat) (cancel_from : option nat) (i : nat) (ch : Child)
  : loop_end * Child :=
  match fuel with
  | O => (LBound, ch)
  | S f =>
      let '(_, ch1) := readline ch in
      let '(r, ch2) := poll ch1 in
      if is_some r then (LExited, ch2)
      else if match cancel_from with Some k => (k <=? i)%nat | None => false end
      then (LCancelled, ch2)
      else restore_loop f cancel_from (S i) ch2
  end.

Definition restore_archive (lib : Lib) (sys : Sys) (ui : UI) (fuel : nat) : M unit :=
  match ui.(selected_row) with
  | None => emit (Warn "Error" "Please select an archive to restore")
  | Some r =>
    g <- get ;;
    backup_id <- lift (item_text g r) ;;
    try_except
      (c <- lift (get_current_config g) ;;
       let restore_path := ui.(dir_choice) in
       if negb (truthy restore_path) then skip else
       config <- lift (need_config c) ;;
       let env := password_env g config in
       result <- run_proc sys (files_cmd backup_id config) env ;;
       if negb (result.(returncode) =? 0)%Z then
         emit (Warn "Error" ("Failed to list snapshot contents: " ++ Py.strip result.(stderr)))
       else
       sel <- select_file lib ui result.(stdout) ;;
       match sel with
       | None => skip
       | Some selected_file =>
         let cmd := ["proxmox-backup-client"; "restore"; backup_id; selected_file;
                     restore_path; "--repository"; config.(cfg_repository)] in
         emit (Spawn cmd env) ;;;
         process <- lift (sys.(popen) cmd env) ;;
         match restore_loop fuel ui.(cancel_from) 0 process with
         | (LCancelled, _) =>
             emit (Terminate cmd) ;;;
             emit (Warn "Cancelled" "Restore operation cancelled")
         | (LBound, _) => skip
         | (LExited, process') =>
             if (process'.(c_code) =? 0)%Z
             then emit (Inform "Success" "Archive restored successfully")
             else emit (Warn "Error" ("Failed to restore archive: " ++ process'.(c_err)))
         end
       end)
      (fun e => emit (Warn "Error" ("Failed to restore archive: " ++ lib.(str_exc) e)))
  end.

(* ------------------------------------------------------------------ *)
(** ** [mount_archive], [unmount_current] *)

Definition mount_archive (lib : Lib) (sys : Sys) (ui : UI) : M unit :=
  g0 <- get ;;
  if truthy_opt g0.(current_mount) then
    emit (Warn "Error" ("An archive is already mounted at "
                        ++ match g0.(current_mount) with Some m => m | None => "" end))
  else
  match ui.(selected_row) with
  | None => emit (Warn "Error" "Please select an archive to mount")
  | Some r =>
    g <- get ;;
    backup_id <- lift (item_text g r) ;;
    try_except
      (c <- lift (get_current_config g) ;;
       let mount_path := ui.(dir_choice) in
       if negb (truthy mount_path) then skip else
       config <- lift (need_config c) ;;
       let env := password_env g config in
       result <- run_proc sys (files_cmd backup_id config) env ;;
       if negb (result.(returncode) =? 0)%Z then
         emit (Warn "Error" ("Failed to list snapshot contents: " ++ Py.strip result.(stderr)))
       else
       sel <- select_file lib ui result.(stdout) ;;
       match sel with
       | None => skip
       | Some selected_file =>
         let cmd := ["proxmox-backup-client"; "mount"; backup_id; selected_file;
                     mount_path; "--repository"; config.(cfg_repository)] in
         emit (Spawn cmd env) ;;;
         process <- lift (sys.(popen) cmd env) ;;
         (* [output, error = process.communicate()] waits for the child *)
         if (process.(c_code) =? 0)%Z then
           emit (Inform "Success" ("Archive mounted successfully at " ++ mount_path
             ++ String "010" (String "010" "Note: The mount will be automatically unmounted when you close the application."))) ;;;
           modify (set_state_mount (Some mount_path))
         else emit (Warn "Error" ("Failed to mount archive: " ++ process.(c_err)))
       end)
      (fun e => emit (Warn "Error" ("Failed to mount archive: " ++ lib.(str_exc) e)))
  end.

Definition unmount_current (lib : Lib) (sys : Sys) : M unit :=
  g <- get ;;
  match g.(current_mount) with
  | Some m =>
    if negb (truthy m) then emit (Inform "Info" "No archive is currently mounted") else
    try_except
      (let cmd := ["fusermount"; "-u"; m] in
       result <- run_proc sys cmd g.(environ) ;;
       if (result.(returncode) =? 0)%Z then
         emit (Inform "Success" ("Archive unmounted successfully from " ++ m)) ;;;
         modify (set_state_mount None)
       else emit (Warn "Error" ("Failed to unmount archive: " ++ result.(stderr))))
      (fun e => emit (Warn "Error" ("Failed to unmount archive: " ++ lib.(str_exc) e)))
  | None => emit (Inform "Info" "No archive is currently mounted")
  end.

(* ------------------------------------------------------------------ *)
(** ** [delete_archive], [test_connection] *)

Definition delete_archive (lib : Lib) (sys : Sys) (ui : UI) : M unit :=
  match ui.(selected_row) with
  | None => emit (Warn "Error" "Please select an archive to delete")
  | Some r =>
    g <- get ;;
    backup_id <- lift (item_text g r) ;;
    if negb ui.(confirm_yes) then skip else
    try_except
      (c <- lift (get_current_config g) ;;
       config <- lift (need_config c) ;;
       let env := password_env g config in
       let cmd := ["proxmox-backup-client"; "snapshot"; "forget"; backup_id;
                   "--repository"; config.(cfg_repository)] in
       result <- run_proc sys cmd env ;;
       if (result.(returncode) =? 0)%Z then
         emit (Inform "Success" "Archive deleted successfully") ;;;
         refresh_archives lib sys
       else emit (Warn "Error" ("Failed to delete archive: " ++ Py.strip result.(stderr))))
      (fun e => emit (Warn "Error" ("Failed to delete archive: " ++ lib.(str_exc) e)))
  end.

Definition test_connection (lib : Lib) (sys : Sys) : M unit :=
  g <- get ;;
  if negb (truthy g.(repo_edit)) || negb (truthy g.(api_edit)) then
    emit (Warn "Error" "Please enter both repository and API key")
  else
    try_except
      (let env := setitem g.(environ) "PBS_PASSWORD" g.(api_edit) in
       let env := if truthy g.(fingerprint_edit)
                  then setitem env "PBS_FINGERPRINT" g.(fingerprint_edit) else env in
       let cmd := ["proxmox-backup-client"; "list"; "--repository"; g.(repo_edit);
                   "--output-format"; "json"] in
       result <- run_proc sys cmd env ;;
       if (result.(returncode) =? 0)%Z then emit (Inform "Success" "Connection successful!")
       else emit (Warn "Error" ("Connection failed: " ++ result.(stderr))))
      (fun e => emit (Warn "Error" ("Connection test failed: " ++ lib.(str_exc) e))).

(* ------------------------------------------------------------------ *)
(** ** [edit_exclusions] and [save_settings] *)

(** [[line.strip() for line in text.split('\n') if line.strip()]] *)
Definition exclusion_lines (text : string) : list string :=
  map Py.strip (filter (fun line => truthy (Py.strip line)) (Py.split_nl text)).

(** [source.exclusions = ...] on the source object held by the current
    profile's list (the config dict shares that list). *)
Definition set_source_exclusions (i : nat) (ex : list string) (p : BackupProfile)
  : BackupProfile :=
  mkProfile p.(name) p.(repository) p.(api_key) p.(fingerprint)
    (replace_nth i (match nth_error p.(backup_sources) i with
                    | Some s => mkSource s.(path) s.(archive_type) ex
                    | None => mkSource "" "" ex
                    end) p.(backup_sources)).

(** [save_settings]: the current profile takes the settings fields, then
    the profiles are written; [SaveConfig] records a completed write, and
    a write that raises records none and only warns. *)
Definition save_settings (lib : Lib) : M unit :=
  try_except
    (g <- get ;;
     (match g.(current_profile_name) with
      | Some n =>
          if truthy n then
            profile <- lift (getitem g.(profiles) n) ;;
            modify (set_state_profiles
                      (setitem g.(profiles) n
                         (mkProfile profile.(name) g.(repo_edit) g.(api_edit)
                            g.(fingerprint_edit) profile.(backup_sources))))
          else skip
      | None => skip
      end) ;;;
     g' <- get ;;
     lift (lib.(write_config) g'.(profiles)) ;;;
     emit (SaveConfig g'.(profiles)))
    (fun e => emit (Warn "Error" ("Failed to save settings: " ++ lib.(str_exc) e))).

Definition edit_exclusions (lib : Lib) (ui : UI) : M unit :=
  g <- get ;;
  c <- lift (get_current_config g) ;;
  let current_row := g.(sources_row) in
  if (current_row <? 0)%Z then emit (Warn "Error" "Please select a source first")
  else
    config <- lift (need_config c) ;;
    let i := Z.to_nat current_row in
    _ <- lift (match nth_error config.(cfg_backup_sources) i with
               | Some s => Ok s | None => Err IndexError end) ;;
    match ui.(dialog_text) with
    | None => skip
    | Some text =>
        (match g.(current_profile_name) with
         | Some n =>
             profile <- lift (getitem g.(profiles) n) ;;
             modify (set_state_profiles
                       (setitem g.(profiles) n
                          (set_source_exclusions i (exclusion_lines text) profile)))
         | None => skip
         end) ;;;
        modify (set_state_row (-1)) ;;;    (* [update_sources_list] *)
        save_settings lib
    end.

(* ------------------------------------------------------------------ *)
(** ** [to_dict] and [from_dict] of the data model

    The YAML file holds the values [to_dict] builds: strings, lists and
    dicts, which [json] represents.  The record fields are strings; a
    value [from_dict] would store that is not a string (or, for
    [exclusions], not a list of strings) cannot be held by the record and
    is refused with [TypeError] here, where Python stores it. *)

(** Python truthiness of a loaded value. *)
Definition json_truthy (v : json) : bool :=
  match v with
  | JNull => false
  | JBool b => b
  | JNum n => negb (n =? 0)%Z
  | JStr s => truthy s
  | JArr l => match l with [] => false | _ => true end
  | JObj fs => match fs with [] => false | _ => true end
  end.

Definition json_str (v : json) : result string :=
  match v with JStr s => Ok s | _ => Err TypeError end.

Fixpoint json_strs (l : list json) : result (list string) :=
  match l with
  | [] => Ok []
  | v :: r => let? s := json_str v in let? ss := json_strs r in Ok (s :: ss)
  end.

(** [BackupSource.to_dict] *)
Definition source_to_dict (s : BackupSource) : json :=
  JObj [("path", JStr s.(path)); ("archive_type", JStr s.(archive_type));
        ("exclusions", JArr (map JStr s.(exclusions)))].

(** [BackupSource.from_dict]: [cls(data['path'], data['archive_type'],
    data.get('exclusions', []))], and the constructor keeps
    [exclusions or []]. *)
Definition source_from_dict (data : json) : result BackupSource :=
  let? p := json_getitem data "path" in
  let? t := json_getitem data "archive_type" in
  let? ex := json_get data "exclusions" (JArr []) in
  let? p := json_str p in
  let? t := json_str t in
  let? ex := (if json_truthy ex
              then match ex with JArr l => json_strs l | _ => Err TypeError end
              else Ok []) in
  Ok (mkSource p t ex).

(** [BackupProfile.to_dict] *)
Definition profile_to_dict (p : BackupProfile) : json :=
  JObj [("name", JStr p.(name)); ("repository", JStr p.(repository));
        ("api_key", JStr p.(api_key)); ("fingerprint", JStr p.(fingerprint));
        ("backup_sources", JArr (map source_to_dict p.(backup_sources)))].

Fixpoint sources_from_dicts (l : list json) : result (list BackupSource) :=
  match l with
  | [] => Ok []
  | d :: r => let? s := source_from_dict d in let? ss := sources_from_dicts r in Ok (s :: ss)
  end.

(** [for x in v] over a loaded value, as the elements it yields: a list
    its elements, an empty dict or string nothing; a non-empty dict or
    string yields strings, on which [from_dict] raises ([str] has no
    [get] and takes no string index); other values are not iterable. *)
Definition json_iter (v : json) (on_str : exc) : result (list json) :=
  match v with
  | JArr l => Ok l
  | JObj [] => Ok []
  | JStr s => if truthy s then Err on_str else Ok []
  | JObj _ => Err on_str
  | _ => Err TypeError
  end.

(** [BackupProfile.from_dict] *)
Definition profile_from_dict (data : json) : result BackupProfile :=
  let? srcs := json_get data "backup_sources" (JArr []) in
  let? srcs := json_iter srcs TypeError in
  let? sources := sources_from_dicts srcs in
  let? nm := json_getitem data "name" in
  let? repo := json_getitem data "repository" in
  let? key := json_getitem data "api_key" in
  let? fp := json_get data "fingerprint" (JStr "") in
  let? nm := json_str nm in
  let? repo := json_str repo in
  let? key := json_str key in
  let? fp := json_str fp in
  Ok (mkProfile nm repo key fp sources).

(** [config_data] of [save_settings]: what [yaml.dump] writes. *)
Definition config_data (ps : list (string * BackupProfile)) : json :=
  JObj [("profiles", JArr (map (fun kp => profile_to_dict (snd kp)) ps))].

(* ------------------------------------------------------------------ *)
(** ** [load_config] *)

Definition set_state_current (c : option string) (g : GUI) : GUI :=
  mkGUI g.(profiles) c g.(current_mount) g.(repo_edit)
    g.(api_edit) g.(fingerprint_edit) g.(sources_row) g.(archives_table) g.(archive_data)
    g.(environ).

(** [BackupProfile('Default')] *)
Definition default_profile : BackupProfile := mkProfile "Default" "" "" "" [].

(** [for profile_data in ...: profile = BackupProfile.from_dict(profile_data);
    self.profiles[profile.name] = profile] *)
Fixpoint load_each (l : list json) : M unit :=
  match l with
  | [] => skip
  | d :: r =>
      p <- lift (profile_from_dict d) ;;
      modify (fun g => set_state_profiles (setitem g.(profiles) p.(name) p) g) ;;;
      load_each r
  end.

(** [load_config]: [exists] is [self.config_file.exists()], [loaded] the
    result of [yaml.safe_load] on the file ([Err] if reading or parsing
    raises). *)
Definition load_config (lib : Lib) (exists_ : bool) (loaded : result json) : M unit :=
  try_except
    ((if exists_ then
        data <- lift loaded ;;
        let data := if json_truthy data then data else JObj [] in
        data <- lift (match data with
                      | JObj fs =>
                          match assoc "profiles" fs with
                          | Some _ => Ok data
                          | None =>
                              let get k d := match assoc k fs with Some v => v | None => d end in
                              Ok (JObj [("profiles",
                                    JArr [JObj [("name", JStr "Default");
                                                ("repository", get "repository" (JStr ""));
                                                ("api_key", get "api_key" (JStr ""));
                                                ("backup_sources", get "backup_sources" (JArr []))]])])
                          end
                      | JNum _ | JBool _ => Err TypeError   (* ['profiles' in data] *)
                      | _ => Err AttributeError             (* [data.get] *)
                      end) ;;
        modify (set_state_profiles []) ;;;
        pds <- lift (let? v := json_get data "profiles" (JArr []) in json_iter v AttributeError) ;;
        load_each pds ;;;
        modify (fun g => set_state_current
                           (match g.(profiles) with (k, _) :: _ => Some k | [] => None end) g)
      else skip) ;;;
     g <- get ;;
     match g.(profiles) with
     | [] => modify (fun g => set_state_current (Some "Default")
                                (set_state_profiles [("Default", default_profile)] g))
     | _ => skip
     end)
    (fun e => emit (Warn "Error" ("Failed to load config: " ++ lib.(str_exc) e)) ;;;
              modify (fun g => set_state_current (Some "Default")
                                 (set_state_profiles [("Default", default_profile)] g))).

(* ------------------------------------------------------------------ *)
(** ** [add_source], [remove_source], [closeEvent] *)

Definition add_sources (p : BackupProfile) (extra : list BackupSource) : BackupProfile :=
  mkProfile p.(name) p.(repository) p.(api_key) p.(fingerprint) (app p.(backup_sources) extra).

(** [add_source], with [path] the text of the source field and
    [archive_type] the combo box text.  [update_sources_list] leaves no
    row selected; the command display it refreshes is not modelled. *)
Definition add_source (lib : Lib) (path archive_type : string) : M unit :=
  g <- get ;;
  if negb (truthy_opt g.(current_profile_name)) then skip
  else if negb (truthy path) then emit (Warn "Error" "Please specify a source path")
  else
    let n := match g.(current_profile_name) with Some n => n | None => "" end in
    profile <- lift (getitem g.(profiles) n) ;;
    modify (fun g => set_state_profiles
              (setitem g.(profiles) n (add_sources profile [mkSource path archive_type []])) g) ;;;
    modify (set_state_row (-1)) ;;;
    save_settings lib.

(** [list.pop(i)] for [0 <= i]: [IndexError] past the end. *)
Fixpoint pop_nth {A} (i : nat) (l : list A) : result (list A) :=
  match l, i with
  | [], _ => Err IndexError
  | _ :: r, O => Ok r
  | x :: r, S i' => let? r' := pop_nth i' r in Ok (x :: r')
  end.

(** [remove_source]: [profile.backup_sources.pop(current_row)], then as
    [add_source]. *)
Definition remove_source (lib : Lib) : M unit :=
  g <- get ;;
  if negb (truthy_opt g.(current_profile_name)) then skip
  else if (0 <=? g.(sources_row))%Z then
    let n := match g.(current_profile_name) with Some n => n | None => "" end in
    profile <- lift (getitem g.(profiles) n) ;;
    srcs <- lift (pop_nth (Z.to_nat g.(sources_row)) profile.(backup_sources)) ;;
    modify (fun g => set_state_profiles
              (setitem g.(profiles) n
                 (mkProfile profile.(name) profile.(repository) profile.(api_key)
                    profile.(fingerprint) srcs)) g) ;;;
    modify (set_state_row (-1)) ;;;
    save_settings lib
  else skip.

(** [closeEvent]: unmount a mounted archive before closing. *)
Definition close_event (lib : Lib) (sys : Sys) : M unit :=
  g <- get ;;
  if truthy_opt g.(current_mount) then
    try_except (unmount_current lib sys)
      (fun e => emit (Warn "Warning" ("Failed to unmount archive on exit: " ++ lib.(str_exc) e)))
  else skip.


(* ------------------------------------------------------------------ *)
(** ** Specifications used in the statements *)

(** [b] is the final path component of [p] once the trailing separators
    are stripped: [p = pre ++ b ++ sl] with [sl] only separators, [b]
    free of separators, [pre] empty or ending in a separator, and
    [pre ++ b] empty or not ending in a separator. *)
Definition final_component (p b : string) : Prop :=
  exists pre sl : list ascii,
    list_ascii_of_string p = app pre (app (list_ascii_of_string b) sl) /\
    Forall (fun c => c = "/"%char) sl /\
    Forall (fun c => c <> "/"%char) (list_ascii_of_string b) /\
    (pre = [] \/ exists q, pre = app q ["/"%char]) /\
    (app pre (list_ascii_of_string b) = [] \/
     exists q c, app pre (list_ascii_of_string b) = app q [c] /\ c <> "/"%char).

(** [s] has no leading and no trailing [str.isspace] character. *)
Definition trimmed (s : string) : Prop :=
  match list_ascii_of_string s with [] => True | c :: _ => Py.is_space c = false end /\
  match rev (list_ascii_of_string s) with [] => True | c :: _ => Py.is_space c = false end.

(** The mount slot holds nothing or a non-empty path. *)
Definition mount_ok (g : GUI) : Prop :=
  match g.(current_mount) with None => True | Some p => truthy p = true end.

Definition state_of {A} (r : GUI * list effect * result A) : GUI := fst (fst r).
Definition effects_of {A} (r : GUI * list effect * result A) : list effect := snd (fst r).

(** One user action or worker run, with any answers of the user, the
    library and the system.  (Profile creation, deletion and switching
    are not modelled; they do not touch [current_mount].) *)
Inductive gui_step : GUI -> GUI -> Prop :=
| step_refresh lib sys g : gui_step g (state_of (refresh_archives lib sys g))
| step_start_backup g : gui_step g (state_of (start_backup g))
| step_worker lib sys fuel g : gui_step g (state_of (worker_run lib sys fuel g))
| step_restore lib sys ui fuel g : gui_step g (state_of (restore_archive lib sys ui fuel g))
| step_mount lib sys ui g : gui_step g (state_of (mount_archive lib sys ui g))
| step_unmount lib sys g : gui_step g (state_of (unmount_current lib sys g))
| step_delete lib sys ui g : gui_step g (state_of (delete_archive lib sys ui g))
| step_test lib sys g : gui_step g (state_of (test_connection lib sys g))
| step_edit lib ui g : gui_step g (state_of (edit_exclusions lib ui g))
| step_save lib g : gui_step g (state_of (save_settings lib g)).

(** States reachable from start-up, where no archive is mounted. *)
Inductive reachable : GUI -> Prop :=
| reach_init g : g.(current_mount) = None -> reachable g
| reach_step g g' : reachable g -> gui_step g g' -> reachable g'.








(** A [snapshot files] listing as the client prints it. *)
Definition sample_files : list json :=
  [JObj [("crypt-mode", JStr "none"); ("filename", JStr "a.pxar.didx"); ("size", JNum 4096)];
   JObj [("crypt-mode", JStr "none"); ("filename", JStr "b.img.fidx"); ("size", JNum 1024)];
   JObj [("crypt-mode", JStr "none"); ("filename", JStr "index.json.blob"); ("size", JNum 300)]].

(** ** Sample data

    A profile with two sources, a repository that lists three snapshots
    and, for each snapshot, a catalog with one [pxar] and one [img]
    archive, and a child process that writes three lines. *)
Definition sample_snapshots : list json :=
  [JObj [("backup-type", JStr "host"); ("backup-id", JStr "pc");
         ("backup-time", JNum 100); ("owner", JStr "me@pbs")];
   JObj [("backup-type", JStr "host"); ("backup-id", JStr "pc");
         ("backup-time", JNum 300); ("verification", JObj [("state", JStr "OK")])];
   JObj [("backup-type", JStr "host"); ("backup-id", JStr "pc");
         ("backup-time", JNum 200); ("verification", JObj [("state", JStr "failed")])]].

Definition sample_lib : Lib := mkLib
  (fun s => if String.eqb s "snapshots" then Ok (JArr sample_snapshots)
            else if String.eqb s "files" then Ok (JArr sample_files)
            else Err JSONDecodeError)
  (fun v => match v with JStr s => s | _ => "?" end)
  (fun t => (0 <=? t)%Z)
  (fun _ => "1970-01-01T00:00:00Z")
  (fun _ => "error")
  (fun _ => Ok "1970-01-01 00:00:00")
  (fun _ => "1.00")
  (fun _ => Ok tt)
  (fun _ => Ok tt).

Definition sample_profile : BackupProfile :=
  mkProfile "home" "backup@pbs@host:store" "secret-key" "AA:BB"
    [mkSource "/home/u/docs//" "pxar" ["*.tmp"; "cache"]; mkSource "/" "img" []].

Definition sample_gui : GUI :=
  mkGUI [("home", sample_profile)] (Some "home") None "backup@pbs@host:store" "secret-key"
    "AA:BB" 0 [] None [("HOME", "/root")].

Definition sample_child (code : Z) : Child := mkChild ["l1"; " l2 "; "l3"] 2 code "boom".

(** [subprocess.run] answers with [code]; a [snapshot list] prints the
    snapshots and a [snapshot files] the catalog. *)
Definition sample_sys (code : Z) : Sys := mkSys
  (fun cmd _ => Ok (mkCompleted code
                      (if String.eqb (nth 2 cmd "?") "list" then "snapshots"
                       else if String.eqb (nth 2 cmd "?") "files" then "files" else "?")
                      "err"))
  (fun _ _ => Ok (sample_child code)).

Definition sample_ui : UI :=
  mkUI (Some 0) "/mnt/x" (fun l i => nth_error l i) true None
    (Some ("  *.tmp " ++ String "010" (String "010" " cache "))).

(** A listing whose only snapshot has no [backup-time]. *)
Definition sample_untimed_lib : Lib := mkLib
  (fun _ => Ok (JArr [JObj [("backup-type", JStr "host"); ("backup-id", JStr "pc")]]))
  (fun v => match v with JStr s => s | _ => "?" end)
  (fun t => (0 <=? t)%Z)
  (fun _ => "1970-01-01T00:00:00Z")
  (fun _ => "error")
  (fun _ => Ok "1970-01-01 00:00:00")
  (fun _ => "1.00")
  (fun _ => Ok tt)
  (fun _ => Ok tt).

(** The state after a refresh of the snapshot list. *)
Definition sample_refreshed : GUI :=
  state_of (refresh_archives sample_lib (sample_sys 0) sample_gui).

(** Restoring the first snapshot into [/restore], cancelled at once. *)
Definition sample_cancel_ui : UI :=
  mkUI (Some 0) "/restore" (fun l i => nth_error l i) true (Some 0) None.

(** The state after a refresh and a mount of the first snapshot. *)
Definition sample_mounted : GUI :=
  state_of (mount_archive sample_lib (sample_sys 0) sample_ui
              (state_of (refresh_archives sample_lib (sample_sys 0) sample_gui))).


(** An operation keeps [mount_ok]. *)
Definition inv_pres {A} (m : M A) : Prop := forall g, mount_ok g -> mount_ok (state_of (m g)).


(** Profile [p] with the settings fields [save_settings] writes into it
    and the sources [srcs]. *)
Definition with_settings (g : GUI) (p : BackupProfile) (srcs : list BackupSource)
  : BackupProfile :=
  mkProfile p.(name) g.(repo_edit) g.(api_edit) g.(fingerprint_edit) srcs.

(** The messages of [save_settings] once the profiles are [ps]: the
    write is recorded when [write_config] succeeds, otherwise the
    exception is shown. *)
Definition save_effects (lib : Lib) (ps : list (string * BackupProfile)) : list effect :=
  match lib.(write_config) ps with
  | Ok _ => [SaveConfig ps]
  | Err e => [Warn "Error" ("Failed to save settings: " ++ lib.(str_exc) e)]
  end.

(** An operation that only writes items of existing rows of the archives
    table, and shows nothing. *)
Definition table_only {A} (m : M A) : Prop :=
  forall g, effects_of (m g) = [] /\
            state_of (m g) = set_state_table (state_of (m g)).(archives_table) g /\
            List.length (state_of (m g)).(archives_table) = List.length g.(archives_table).

(** * Theorems *)

(** ** String helpers *)

Lemma take_drop_while (p : ascii -> bool) (l : list ascii) :
  app (Py.take_while p l) (Py.drop_while p l) = l.
Proof. induction l as [|c r IH]; simpl; [reflexivity|]. destruct (p c); simpl; congruence. Qed.

Lemma take_while_forall (p : ascii -> bool) (l : list ascii) :
  Forall (fun c => p c = true) (Py.take_while p l).
Proof.
  induction l as [|c r IH]; simpl; [constructor|].
  destruct (p c) eqn:E; constructor; auto.
Qed.

Lemma drop_while_head (p : ascii -> bool) (l : list ascii) :
  Py.drop_while p l = [] \/ exists c r, Py.drop_while p l = c :: r /\ p c = false.
Proof.
  induction l as [|c r IH]; simpl; [auto|].
  destruct (p c) eqn:E; [exact IH|right; eauto].
Qed.

Lemma is_slash_true (c : ascii) : Py.is_slash c = true <-> c = "/"%char.
Proof. unfold Py.is_slash. apply Ascii.eqb_eq. Qed.

Lemma rev_snoc_of_cons {A} (c : A) (r : list A) : exists q, rev (c :: r) = app q [c].
Proof. exists (rev r). reflexivity. Qed.

Lemma basename_final_component (p : string) :
  final_component p (Py.basename (Py.rstrip_slash p)).
Proof.
  unfold final_component, Py.basename, Py.rstrip_slash, Py.rstrip_by.
  rewrite !list_ascii_of_string_of_list_ascii, rev_involutive.
  set (R := rev (list_ascii_of_string p)).
  set (ds := Py.drop_while Py.is_slash R).
  set (ns := fun c => negb (Py.is_slash c)).
  exists (rev (Py.drop_while ns ds)), (rev (Py.take_while Py.is_slash R)).
  repeat split.
  - assert (HR : list_ascii_of_string p = rev R) by (unfold R; now rewrite rev_involutive).
    rewrite HR.
    transitivity (rev (app (Py.take_while Py.is_slash R)
                        (app (Py.take_while ns ds) (Py.drop_while ns ds)))).
    + rewrite take_drop_while. unfold ds. now rewrite take_drop_while.
    + rewrite !rev_app_distr, !app_assoc. reflexivity.
  - apply Forall_rev. eapply Forall_impl; [|apply take_while_forall].
    intros c H. now apply is_slash_true.
  - apply Forall_rev. eapply Forall_impl; [|apply take_while_forall].
    intros c H. unfold ns in H. intro Hc. apply is_slash_true in Hc. rewrite Hc in H. discriminate.
  - destruct (drop_while_head ns ds) as [->|(c & r & -> & Hc)]; [now left|right].
    exists (rev r). unfold ns in Hc. apply negb_false_iff, is_slash_true in Hc.
    subst c. reflexivity.
  - rewrite <- rev_app_distr, take_drop_while.
    destruct (drop_while_head Py.is_slash R) as [H|(c & r & H & Hc)]; fold ds in H.
    + left. rewrite H. reflexivity.
    + right. exists (rev r), c. rewrite H. split; [reflexivity|].
      intro E. apply is_slash_true in E. congruence.
Qed.

Lemma fold_exclusions (ex : list string) (acc : list string) :
  fold_left (fun cmd exclusion => app cmd ["--exclude=" ++ exclusion]) ex acc
  = app acc (map (fun e => "--exclude=" ++ e) ex).
Proof.
  revert acc. induction ex as [|e r IH]; intros acc; simpl.
  - now rewrite app_nil_r.
  - rewrite IH, <- app_assoc. reflexivity.
Qed.

Lemma fold_sources (ss : list BackupSource) (acc : list string) :
  fold_left
    (fun cmd source =>
       fold_left (fun cmd exclusion => app cmd ["--exclude=" ++ exclusion])
         source.(exclusions) (app cmd [source_arg source])) ss acc
  = app acc (concat (map (fun s => source_arg s :: map (fun e => "--exclude=" ++ e) s.(exclusions)) ss)).
Proof.
  revert acc. induction ss as [|s r IH]; intros acc; simpl.
  - now rewrite app_nil_r.
  - rewrite fold_exclusions, IH, <- !app_assoc. reflexivity.
Qed.

(** ** C1 *)

(** C1: for the current profile [P], the backup argument vector is the
    program and subcommand, then for each source in stored order its
    positional argument ["{baseName(path)}.{archiveType}:{path}"]
    immediately followed by one ["--exclude={pattern}"] per exclusion in
    stored order, and it ends with ["--repository"; P.repository];
    [baseName] keeps the final component of the path stripped of its
    trailing separators. *)
Theorem get_backup_command_layout (g : GUI) (n : string) (P : BackupProfile) :
  g.(current_profile_name) = Some n -> truthy n = true ->
  assoc n g.(profiles) = Some P ->
  get_backup_command g =
    Ok (app ["proxmox-backup-client"; "backup"]
         (app (concat (map (fun s =>
                 (Py.basename (Py.rstrip_slash s.(path)) ++ "." ++ s.(archive_type)
                  ++ ":" ++ s.(path))
                 :: map (fun e => "--exclude=" ++ e) s.(exclusions))
               P.(backup_sources)))
           ["--repository"; P.(repository)]))
  /\ Forall (fun s => final_component s.(path) (Py.basename (Py.rstrip_slash s.(path))))
       P.(backup_sources).
Proof.
  intros Hn Ht HP. split.
  - unfold get_backup_command, get_current_config. rewrite Hn, Ht.
    unfold getitem. rewrite HP. simpl. rewrite fold_sources, <- app_assoc. reflexivity.
  - apply Forall_forall. intros s _. apply basename_final_component.
Qed.

(** ** Stripping and splitting *)


Lemma strip_shape (s : string) :
  exists a b,
    list_ascii_of_string s = app a (app (list_ascii_of_string (Py.strip s)) b) /\
    Forall (fun c => Py.is_space c = true) a /\
    Forall (fun c => Py.is_space c = true) b /\
    trimmed (Py.strip s).
Proof.
  unfold trimmed, Py.strip, Py.rstrip_by, Py.lstrip_by.
  rewrite !list_ascii_of_string_of_list_ascii, rev_involutive.
  set (L := list_ascii_of_string s).
  set (A := Py.drop_while Py.is_space L).
  set (D := Py.drop_while Py.is_space (rev A)).
  assert (E := take_drop_while Py.is_space (rev A)). fold D in E.
  assert (HA : A = app (rev D) (rev (Py.take_while Py.is_space (rev A)))).
  { transitivity (rev (rev A)); [symmetry; apply rev_involutive|].
    rewrite <- E at 1. apply rev_app_distr. }
  exists (Py.take_while Py.is_space L), (rev (Py.take_while Py.is_space (rev A))).
  repeat split.
  - rewrite <- HA. unfold A. symmetry. apply take_drop_while.
  - apply take_while_forall.
  - apply Forall_rev, take_while_forall.
  - destruct (rev D) as [|c r] eqn:Hr; [exact I|].
    destruct (drop_while_head Py.is_space L) as [HL|(c' & r' & HL & Hc)];
      fold A in HL; rewrite HA in HL; simpl in HL; congruence.
  - destruct (drop_while_head Py.is_space (rev A)) as [HL|(c & r & HL & Hc)];
      fold D in HL; rewrite HL; auto.
Qed.

Lemma string_of_list_ascii_app (a b : list ascii) :
  string_of_list_ascii (app a b) = string_of_list_ascii a ++ string_of_list_ascii b.
Proof. induction a as [|c r IH]; simpl; [reflexivity|]. now rewrite IH. Qed.

Lemma string_append_assoc (a b c : string) : a ++ (b ++ c) = (a ++ b) ++ c.
Proof. induction a as [|x r IH]; simpl; [reflexivity|]. now rewrite IH. Qed.

Lemma string_append_nil (a : string) : a ++ "" = a.
Proof. induction a as [|x r IH]; simpl; [reflexivity|]. now rewrite IH. Qed.

Lemma split_nl_aux_cons (cur l : list ascii) : exists x xs, Py.split_nl_aux cur l = x :: xs.
Proof.
  revert cur. induction l as [|c r IH]; intros cur; simpl; [eauto|].
  destruct (Ascii.eqb c "010"%char); eauto.
Qed.

Lemma concat_cons2 (sep a b : string) (r : list string) :
  String.concat sep (a :: b :: r) = a ++ sep ++ String.concat sep (b :: r).
Proof. reflexivity. Qed.

Lemma split_nl_aux_join (cur l : list ascii) :
  Py.join (String "010" "") (Py.split_nl_aux cur l)
  = string_of_list_ascii (rev cur) ++ string_of_list_ascii l.
Proof.
  revert cur. induction l as [|c r IH]; intros cur; simpl.
  - symmetry. apply string_append_nil.
  - destruct (Ascii.eqb_spec c "010"%char) as [->|Hc].
    + destruct (split_nl_aux_cons [] r) as (x & xs & Hx).
      unfold Py.join in *. rewrite Hx, concat_cons2, <- Hx, IH. reflexivity.
    + rewrite IH. simpl. rewrite string_of_list_ascii_app, <- string_append_assoc. reflexivity.
Qed.

Lemma split_nl_aux_no_newline (cur l : list ascii) :
  ~ In "010"%char cur ->
  Forall (fun line => ~ In "010"%char (list_ascii_of_string line)) (Py.split_nl_aux cur l).
Proof.
  revert cur. induction l as [|c r IH]; intros cur Hcur; simpl.
  - constructor; [|constructor]. rewrite list_ascii_of_string_of_list_ascii.
    now rewrite <- in_rev.
  - destruct (Ascii.eqb_spec c "010"%char) as [->|Hc].
    + constructor; [|apply IH; simpl; tauto].
      rewrite list_ascii_of_string_of_list_ascii. now rewrite <- in_rev.
    + apply IH. simpl. intros [H|H]; [congruence|tauto].
Qed.

(** [text.split('\n')] cuts [text] at its newlines. *)
Lemma split_nl_lines (text : string) :
  Py.join (String "010" "") (Py.split_nl text) = text /\
  Forall (fun line => ~ In "010"%char (list_ascii_of_string line)) (Py.split_nl text).
Proof.
  split.
  - unfold Py.split_nl. rewrite split_nl_aux_join. simpl. apply string_of_list_ascii_of_string.
  - apply split_nl_aux_no_newline. simpl. tauto.
Qed.

Lemma exclusion_lines_clean (text : string) :
  Forall (fun e => e <> "" /\ trimmed e) (exclusion_lines text).
Proof.
  unfold exclusion_lines. apply Forall_map, Forall_forall.
  intros line Hin. apply filter_In in Hin as [_ Ht].
  split.
  - intro E. unfold truthy in Ht. rewrite E in Ht. discriminate.
  - destruct (strip_shape line) as (_ & _ & _ & _ & _ & H). exact H.
Qed.

(** ** Dictionaries and lists *)

Lemma assoc_setitem_same {V} (d : list (string * V)) (k : string) (v : V) :
  assoc k (setitem d k v) = Some v.
Proof.
  induction d as [|[k' v'] r IH]; simpl.
  - now rewrite String.eqb_refl.
  - destruct (String.eqb_spec k k') as [->|Hk]; simpl.
    + now rewrite String.eqb_refl.
    + apply String.eqb_neq in Hk. now rewrite Hk.
Qed.

Lemma length_replace_nth {A} (i : nat) (x : A) (l : list A) :
  List.length (replace_nth i x l) = List.length l.
Proof. revert i; induction l as [|y r IH]; intros [|i]; simpl; auto. Qed.

Lemma nth_error_replace_nth {A} (i : nat) (x : A) (l : list A) :
  (i < List.length l)%nat -> nth_error (replace_nth i x l) i = Some x.
Proof.
  revert i; induction l as [|y r IH]; intros [|i] H; simpl in *; try lia; auto.
  apply IH. lia.
Qed.

(** ** C10 *)

(** C10: saving the exclusions dialog with text [text] for the selected
    source stores exactly the whitespace-trimmed non-empty lines of
    [text], in input order: [text] is cut at its newlines, each piece is
    stripped, blank pieces are dropped, and no stored entry is empty or
    has leading or trailing whitespace. *)
Theorem edit_exclusions_trimmed_lines (lib : Lib) (ui : UI) (g : GUI) (n : string)
    (P : BackupProfile) (i : nat) (s : BackupSource) (text : string) :
  g.(current_profile_name) = Some n -> truthy n = true -> assoc n g.(profiles) = Some P ->
  g.(sources_row) = Z.of_nat i -> nth_error P.(backup_sources) i = Some s ->
  ui.(dialog_text) = Some text ->
  exists g' es P',
    edit_exclusions lib ui g = (g', es, Ok tt) /\
    assoc n g'.(profiles) = Some P' /\
    nth_error P'.(backup_sources) i
      = Some (mkSource s.(path) s.(archive_type) (exclusion_lines text)) /\
    exclusion_lines text
      = map Py.strip (filter (fun line => truthy (Py.strip line)) (Py.split_nl text)) /\
    Py.join (String "010" "") (Py.split_nl text) = text /\
    Forall (fun line => ~ In "010"%char (list_ascii_of_string line)) (Py.split_nl text) /\
    Forall (fun e => e <> "" /\ trimmed e) (exclusion_lines text).
Proof.
  intros Hn Ht HP Hr Hs Hd.
  assert (Hlt : (i < List.length P.(backup_sources))%nat)
    by (apply nth_error_Some; congruence).
  destruct (split_nl_lines text) as [Hj Hnl].
  unfold edit_exclusions, mbind, get, lift. simpl.
  unfold get_current_config. rewrite Hn, Ht. unfold getitem. rewrite HP. simpl.
  rewrite Hr, Nat2Z.id. replace (Z.of_nat i <? 0)%Z with false by (symmetry; apply Z.ltb_ge; lia).
  rewrite Hs, Hd.
  unfold save_settings, try_except, mbind, get, lift, modify, emit. simpl.
  rewrite Hn, Ht. unfold getitem. rewrite assoc_setitem_same. simpl.
  destruct (write_config lib _); simpl;
  (do 3 eexists; split; [reflexivity|];
   split; [apply assoc_setitem_same|]; simpl;
   split; [|split; [reflexivity|split; [exact Hj|split; [exact Hnl|apply exclusion_lines_clean]]]];
   rewrite nth_error_replace_nth, Hs; [reflexivity|exact Hlt]).
Qed.

(** ** The mount slot *)

Lemma pres_ret {A} (a : A) : inv_pres (ret a).
Proof. intros g H. exact H. Qed.

Lemma pres_lift {A} (r : result A) : inv_pres (lift r).
Proof. intros g H. exact H. Qed.

Lemma pres_get : inv_pres get.
Proof. intros g H. exact H. Qed.

Lemma pres_emit (e : effect) : inv_pres (emit e).
Proof. intros g H. exact H. Qed.

Lemma pres_modify (f : GUI -> GUI) :
  (forall g, mount_ok g -> mount_ok (f g)) -> inv_pres (modify f).
Proof. intros Hf g H. exact (Hf g H). Qed.

Lemma pres_bind {A B} (m : M A) (k : A -> M B) :
  inv_pres m -> (forall a, inv_pres (k a)) -> inv_pres (mbind m k).
Proof.
  intros Hm Hk g H. unfold state_of, mbind in *. specialize (Hm g H).
  destruct (m g) as [[g1 es1] [a|e]]; simpl in *; [|exact Hm].
  specialize (Hk a g1 Hm). destruct (k a g1) as [[g2 es2] r]. exact Hk.
Qed.

Lemma pres_try {A} (m : M A) (h : exc -> M A) :
  inv_pres m -> (forall e, inv_pres (h e)) -> inv_pres (try_except m h).
Proof.
  intros Hm Hh g H. unfold state_of, try_except in *. specialize (Hm g H).
  destruct (m g) as [[g1 es1] [a|e]]; simpl in *; [exact Hm|].
  specialize (Hh e g1 Hm). destruct (h e g1) as [[g2 es2] r]. exact Hh.
Qed.

Lemma pres_for_enum {A} (i : nat) (l : list A) (body : nat -> A -> M unit) :
  (forall j a, inv_pres (body j a)) -> inv_pres (for_enum i l body).
Proof.
  revert i. induction l as [|a r IH]; intros i Hb; simpl.
  - apply pres_ret.
  - apply pres_bind; [apply Hb|intros _; apply IH, Hb].
Qed.

Ltac pres :=
  repeat match goal with
  | |- inv_pres (mbind _ _) => apply pres_bind; [|intro]
  | |- inv_pres (try_except _ _) => apply pres_try; [|intro]
  | |- inv_pres (ret _) => apply pres_ret
  | |- inv_pres skip => apply pres_ret
  | |- inv_pres (lift _) => apply pres_lift
  | |- inv_pres (raise _) => apply pres_lift
  | |- inv_pres get => apply pres_get
  | |- inv_pres (emit _) => apply pres_emit
  | |- inv_pres (run_proc _ _ _) => apply pres_bind; [apply pres_emit|intro; apply pres_lift]
  | |- inv_pres (for_enum _ _ _) => apply pres_for_enum; intros
  | |- inv_pres (modify _) =>
      apply pres_modify; intros ? ?; unfold mount_ok in *; simpl;
      try assumption; try exact I; try (apply negb_false_iff; assumption)
  | |- inv_pres (if ?b then _ else _) => destruct b eqn:?
  | |- inv_pres (match ?x with _ => _ end) => destruct x eqn:?
  end.

Lemma pres_refresh lib sys : inv_pres (refresh_archives lib sys).
Proof. unfold refresh_archives, render_row, set_item_st. pres. Qed.

Lemma pres_validate b : inv_pres (validate_config b).
Proof. unfold validate_config. pres. Qed.

Lemma pres_start_backup : inv_pres start_backup.
Proof. unfold start_backup. apply pres_bind; [apply pres_validate|]. intros. pres. Qed.

Lemma pres_backup_read_loop fuel ch : inv_pres (backup_read_loop fuel ch).
Proof.
  revert ch. induction fuel as [|f IH]; intros ch; simpl; [apply pres_ret|].
  destruct (readline ch) as [output ch1].
  destruct (if String.eqb output "" then _ else _) as [stop ch2].
  destruct stop; [apply pres_ret|]. apply pres_bind; [|intros; apply IH]. pres.
Qed.

Lemma pres_worker lib sys fuel : inv_pres (worker_run lib sys fuel).
Proof.
  unfold worker_run. apply pres_try; [|intros; pres].
  pres. apply pres_backup_read_loop.
Qed.

Lemma pres_select_file lib ui out : inv_pres (select_file lib ui out).
Proof. unfold select_file. pres. Qed.

Lemma pres_restore lib sys ui fuel : inv_pres (restore_archive lib sys ui fuel).
Proof. unfold restore_archive. pres; apply pres_select_file. Qed.

Lemma pres_mount lib sys ui : inv_pres (mount_archive lib sys ui).
Proof. unfold mount_archive. pres; apply pres_select_file. Qed.

Lemma pres_unmount lib sys : inv_pres (unmount_current lib sys).
Proof. unfold unmount_current. pres. Qed.

Lemma pres_delete lib sys ui : inv_pres (delete_archive lib sys ui).
Proof. unfold delete_archive. pres. apply pres_refresh. Qed.

Lemma pres_test lib sys : inv_pres (test_connection lib sys).
Proof. unfold test_connection. pres. Qed.

Lemma pres_save lib : inv_pres (save_settings lib).
Proof. unfold save_settings. pres. Qed.

Lemma pres_edit lib ui : inv_pres (edit_exclusions lib ui).
Proof. unfold edit_exclusions. pres. apply pres_save. Qed.

Lemma reachable_mount_ok g : reachable g -> mount_ok g.
Proof.
  induction 1 as [g H|g g' _ IH Hs].
  - unfold mount_ok. now rewrite H.
  - destruct Hs.
    + now apply pres_refresh.
    + now apply pres_start_backup.
    + now apply pres_worker.
    + now apply pres_restore.
    + now apply pres_mount.
    + now apply pres_unmount.
    + now apply pres_delete.
    + now apply pres_test.
    + now apply pres_edit.
    + now apply pres_save.
Qed.

Lemma select_file_state lib ui out g : state_of (select_file lib ui out g) = g.
Proof.
  unfold select_file, try_except, mbind, lift, emit, ret, raise, state_of.
  destruct (json_loads lib out); simpl; [|destruct e; reflexivity].
  destruct (pxar_files_of a) as [l|e]; simpl; [|destruct e; reflexivity].
  destruct l as [|f [|f2 r]]; simpl; try reflexivity. destruct (item_choice ui _ 0); reflexivity.
Qed.

Ltac unchanged H := inversion H; subst; simpl in *; congruence.

(** [mount_archive] changes the mount slot only when the slot was free,
    the mount command was spawned and the child exited with code 0; the
    slot then holds the chosen directory. *)
Lemma mount_archive_transition lib sys ui g g' es r :
  mount_archive lib sys ui g = (g', es, r) -> g'.(current_mount) <> g.(current_mount) ->
  truthy_opt g.(current_mount) = false /\ g'.(current_mount) = Some ui.(dir_choice) /\
  exists cmd env ch,
    In (Spawn cmd env) es /\ firstn 2 cmd = ["proxmox-backup-client"; "mount"] /\
    sys.(popen) cmd env = Ok ch /\ ch.(c_code) = 0%Z.
Proof.
  intros H Hne.
  unfold mount_archive, mbind, get, emit, lift, try_except, run_proc, modify, skip, ret in H.
  simpl in H.
  destruct (truthy_opt (current_mount g)) eqn:Hm; [unchanged H|].
  destruct (selected_row ui) as [row|]; [|unchanged H].
  destruct (item_text g row) as [bid|e]; simpl in H; [|unchanged H].
  destruct (get_current_config g) as [c|e]; simpl in H; [|unchanged H].
  destruct (negb (truthy (dir_choice ui))) eqn:Hd; simpl in H; [unchanged H|].
  destruct (need_config c) as [config|e]; simpl in H; [|unchanged H].
  destruct (run sys _ _) as [res|e]; simpl in H; [|unchanged H].
  destruct (negb (returncode res =? 0)%Z) eqn:Hrc; simpl in H; [unchanged H|].
  pose proof (select_file_state lib ui (stdout res) g) as Hs. unfold state_of in Hs.
  destruct (select_file lib ui (stdout res) g) as [[g1 es1] [sel|e]] eqn:Hsel;
    simpl in Hs; subst g1; simpl in H; [|unchanged H].
  destruct sel as [f|]; simpl in H; [|unchanged H].
  destruct (popen sys _ _) as [ch|e] eqn:Hp; simpl in H; [|unchanged H].
  destruct (c_code ch =? 0)%Z eqn:Hc; simpl in H; [|unchanged H].
  inversion H; subst; simpl in *.
  split; [reflexivity|split; [reflexivity|]].
  do 3 eexists. split; [right; apply in_or_app; right; left; reflexivity|].
  split; [reflexivity|split; [exact Hp|now apply Z.eqb_eq]].
Qed.

(** ** C4 *)

(** C4: in every reachable state the single mount slot holds at most one
    mount path; a mount request while an archive is mounted only warns
    (no process, state unchanged, so the path of the first mount stays);
    and the slot becomes [Some path] only from a free slot, after the
    mount command was spawned and exited with code 0. *)
Theorem mount_slot_exclusive (g : GUI) :
  reachable g ->
  (forall p, g.(current_mount) = Some p ->
     forall lib sys ui,
       mount_archive lib sys ui g
       = (g, [Warn "Error" ("An archive is already mounted at " ++ p)], Ok tt)) /\
  (forall lib sys ui g' es r,
     mount_archive lib sys ui g = (g', es, r) -> g'.(current_mount) <> g.(current_mount) ->
     g.(current_mount) = None /\ g'.(current_mount) = Some ui.(dir_choice) /\
     exists cmd env ch,
       In (Spawn cmd env) es /\ firstn 2 cmd = ["proxmox-backup-client"; "mount"] /\
       sys.(popen) cmd env = Ok ch /\ ch.(c_code) = 0%Z).
Proof.
  intros Hr. pose proof (reachable_mount_ok g Hr) as Hok. unfold mount_ok in Hok.
  split.
  - intros p Hp lib sys ui. rewrite Hp in Hok.
    unfold mount_archive, mbind, get, emit. simpl. rewrite Hp. simpl. rewrite Hok. reflexivity.
  - intros lib sys ui g' es r H Hne.
    destruct (mount_archive_transition lib sys ui g g' es r H Hne) as (Hf & Hs & Hx).
    split; [|split; [exact Hs|exact Hx]].
    destruct (current_mount g) as [p|]; [|reflexivity].
    simpl in Hf. congruence.
Qed.

(** ** C5 *)

(** C5: [unmount_current] with no mount only informs ("No archive is
    currently mounted") and spawns nothing; with a mount at [m] it spawns
    [fusermount -u m] and frees the slot only if that command exits with
    code 0, keeping [Some m] otherwise. *)
Theorem unmount_current_spec (lib : Lib) (sys : Sys) (g : GUI) :
  (g.(current_mount) = None ->
     unmount_current lib sys g
     = (g, [Inform "Info" "No archive is currently mounted"], Ok tt)) /\
  (forall m, g.(current_mount) = Some m -> truthy m = true ->
     exists es,
       unmount_current lib sys g
       = (match sys.(run) ["fusermount"; "-u"; m] g.(environ) with
          | Ok res => if (res.(returncode) =? 0)%Z then set_state_mount None g else g
          | Err _ => g
          end, Spawn ["fusermount"; "-u"; m] g.(environ) :: es, Ok tt)).
Proof.
  split.
  - intros Hn. unfold unmount_current, mbind, get, emit. simpl. rewrite Hn. reflexivity.
  - intros m Hm Ht.
    unfold unmount_current, mbind, get, emit, lift, try_except, run_proc, modify. simpl.
    rewrite Hm, Ht. simpl.
    destruct (run sys ["fusermount"; "-u"; m] (environ g)) as [res|e]; simpl; [|eauto].
    destruct (returncode res =? 0)%Z; simpl; eauto.
Qed.

(** ** C9 *)

(** C9: a catalog refresh whose listing process exits non-zero, or whose
    output [json.loads] rejects, leaves the whole GUI state unchanged, in
    particular the table rows and [archive_data] of the last successful
    refresh (a process that cannot be started changes nothing either). *)
Theorem refresh_failure_keeps_catalog (lib : Lib) (sys : Sys) (g : GUI) :
  (forall cmd env res, sys.(run) cmd env = Ok res ->
     res.(returncode) <> 0%Z \/ exists e, lib.(json_loads) res.(stdout) = Err e) ->
  state_of (refresh_archives lib sys g) = g /\
  (state_of (refresh_archives lib sys g)).(archives_table) = g.(archives_table) /\
  (state_of (refresh_archives lib sys g)).(archive_data) = g.(archive_data).
Proof.
  intros Hfail.
  enough (E : state_of (refresh_archives lib sys g) = g) by (rewrite E; auto).
  unfold refresh_archives, state_of, try_except, mbind, get, lift, run_proc, emit, skip, ret.
  simpl.
  destruct (get_current_config g) as [c|e]; simpl; [|reflexivity].
  destruct (need_config c) as [config|e]; simpl; [|reflexivity].
  destruct (run sys _ _) as [res|e] eqn:Hrun; simpl; [|reflexivity].
  destruct (Hfail _ _ _ Hrun) as [Hrc|(e & He)].
  - apply Z.eqb_neq in Hrc. rewrite Hrc. reflexivity.
  - destruct (returncode res =? 0)%Z; [|reflexivity]. rewrite He. reflexivity.
Qed.

(** ** Sorting the snapshot list *)

Section StableSort.
Variable key : json -> Z.







End StableSort.


(** ** Rendering the snapshot rows *)












Lemma length_set_row_count (n : nat) (t : table) : List.length (set_row_count n t) = n.
Proof.
  unfold set_row_count. rewrite length_app, length_firstn, repeat_length. lia.
Qed.



(** ** The streaming runs *)

Lemma backup_read_loop_ok (ls : list string) (a : nat) (c : Z) (e : string) :
  Forall (fun s => s <> "") ls ->
  forall (fuel : nat) (g : GUI), (List.length ls + a < fuel)%nat ->
  backup_read_loop fuel (mkChild ls a c e) g
  = (g, map (fun s => Emit (Progress (Py.strip s))) ls, Ok (Some (mkChild [] 0 c e))).
Proof.
  induction 1 as [|s ls Hs Hls IH]; intros fuel g Hf.
  - simpl in Hf. revert fuel Hf. induction a as [|a IHa]; intros [|f] Hf; try lia;
      simpl; [reflexivity|].
    unfold mbind, skip, ret. rewrite IHa by lia. reflexivity.
  - destruct fuel as [|f]; [simpl in Hf; lia|]. simpl.
    destruct (String.eqb_spec s "") as [E|_]; [contradiction|].
    unfold mbind, emit, truthy. destruct (String.eqb_spec s "") as [E|_]; [contradiction|].
    simpl. rewrite IH by (simpl in Hf; lia). reflexivity.
Qed.

Lemma restore_loop_cancel (k : nat) :
  forall (fuel i : nat) (ch : Child), (i <= k)%nat -> (k - i < ch.(c_alive))%nat ->
  (k - i < fuel)%nat -> fst (restore_loop fuel (Some k) i ch) = LCancelled.
Proof.
  induction fuel as [|f IH]; intros i [ls a c e] Hi Ha Hf; [lia|]. simpl in *.
  assert (Hr : snd (readline (mkChild ls a c e)) = mkChild (tl ls) a c e)
    by (destruct ls; reflexivity).
  destruct (readline (mkChild ls a c e)) as [out ch1] eqn:E. simpl in Hr. subst ch1.
  destruct a as [|a]; [lia|]. simpl.
  destruct (Nat.leb_spec k i) as [Hki|Hki]; [reflexivity|].
  apply IH; simpl; lia.
Qed.

Lemma worker_run_stream (lib : Lib) (sys : Sys) (fuel : nat) (g : GUI) (n : string)
    (P : BackupProfile) (cmd : list string) (ch : Child) :
  g.(current_profile_name) = Some n -> truthy n = true -> assoc n g.(profiles) = Some P ->
  get_backup_command g = Ok cmd ->
  sys.(popen) cmd (backup_env g (config_of P)) = Ok ch ->
  Forall (fun s => s <> "") ch.(c_lines) ->
  (List.length ch.(c_lines) + ch.(c_alive) < fuel)%nat ->
  worker_run lib sys fuel g
  = (g, app [Emit (CommandReady cmd); Emit (Progress ("Running command: " ++ Py.join " " cmd));
             Spawn cmd (backup_env g (config_of P))]
          (app (map (fun s => Emit (Progress (Py.strip s))) ch.(c_lines))
               [Emit (if (ch.(c_code) =? 0)%Z then Finished true "Backup completed successfully"
                      else Finished false ("Backup failed: " ++ ch.(c_err)))]),
     Ok tt).
Proof.
  intros Hn Ht HP Hcmd Hp Hne Hf.
  unfold worker_run, try_except, mbind, get, lift, get_current_config.
  rewrite Hn, Ht. unfold getitem at 1. rewrite HP. simpl.
  rewrite Hcmd. unfold emit. simpl. rewrite Hp.
  destruct ch as [ls a c e]. simpl in *.
  rewrite (backup_read_loop_ok ls a c e Hne fuel g Hf). simpl.
  destruct c as [|c|c]; simpl; reflexivity.
Qed.

Lemma restore_archive_cancel (lib : Lib) (sys : Sys) (ui : UI) (fuel : nat) (g : GUI)
    (r : nat) (bid : string) (n : string) (P : BackupProfile) (res : Completed)
    (es1 : list effect) (f : string) (ch : Child) (k : nat) :
  ui.(selected_row) = Some r -> item_text g r = Ok bid ->
  g.(current_profile_name) = Some n -> truthy n = true -> assoc n g.(profiles) = Some P ->
  truthy ui.(dir_choice) = true ->
  sys.(run) (files_cmd bid (config_of P)) (password_env g (config_of P)) = Ok res ->
  res.(returncode) = 0%Z ->
  select_file lib ui res.(stdout) g = (g, es1, Ok (Some f)) ->
  sys.(popen) ["proxmox-backup-client"; "restore"; bid; f; ui.(dir_choice);
               "--repository"; P.(repository)] (password_env g (config_of P)) = Ok ch ->
  ui.(cancel_from) = Some k -> (k < ch.(c_alive))%nat -> (k < fuel)%nat ->
  restore_archive lib sys ui fuel g
  = (g, app (Spawn (files_cmd bid (config_of P)) (password_env g (config_of P)) :: es1)
          [Spawn ["proxmox-backup-client"; "restore"; bid; f; ui.(dir_choice);
                  "--repository"; P.(repository)] (password_env g (config_of P));
           Terminate ["proxmox-backup-client"; "restore"; bid; f; ui.(dir_choice);
                      "--repository"; P.(repository)];
           Warn "Cancelled" "Restore operation cancelled"],
     Ok tt).
Proof.
  intros Hsel Hit Hn Ht HP Hd Hrun Hrc Hsf Hp Hc Hk Hf.
  pose proof (restore_loop_cancel k fuel 0 ch ltac:(lia) ltac:(lia) ltac:(lia)) as Hl.
  unfold restore_archive. rewrite Hsel.
  unfold try_except, mbind, get, lift at 1. rewrite Hit.
  unfold lift, get_current_config. rewrite Hn, Ht. unfold getitem at 1. rewrite HP.
  simpl. rewrite Hd. simpl. unfold run_proc, mbind, emit, lift. rewrite Hrun, Hrc. simpl.
  rewrite Hsf. simpl. rewrite Hp. rewrite Hc.
  destruct (restore_loop fuel (Some k) 0 ch) as [[| |] ch'] eqn:E; simpl in Hl;
    try discriminate.
  simpl. reflexivity.
Qed.

(** C2 (as the code has it): a backup run delivers, in this order, the
    command, the ["Running command: ..."] line, then starts the child
    and delivers each chunk it writes, stripped of surrounding
    whitespace, and finally exactly one [finished] signal: success with
    a fixed text when the exit code is 0, failure with ["Backup failed: "]
    followed by the child's standard-error text otherwise; nothing
    follows it.  The backup run has no cancellation.  A restore that the
    user cancels while the child runs terminates the child and ends with
    the ["Cancelled"] warning, with no success or failure message. *)
Theorem streaming_runs_ordered :
  (forall (lib : Lib) (sys : Sys) (fuel : nat) (g : GUI) (n : string) (P : BackupProfile)
          (cmd : list string) (ch : Child),
     g.(current_profile_name) = Some n -> truthy n = true -> assoc n g.(profiles) = Some P ->
     get_backup_command g = Ok cmd ->
     sys.(popen) cmd (backup_env g (config_of P)) = Ok ch ->
     Forall (fun s => s <> "") ch.(c_lines) ->
     (List.length ch.(c_lines) + ch.(c_alive) < fuel)%nat ->
     worker_run lib sys fuel g
     = (g, app [Emit (CommandReady cmd);
                Emit (Progress ("Running command: " ++ Py.join " " cmd));
                Spawn cmd (backup_env g (config_of P))]
             (app (map (fun s => Emit (Progress (Py.strip s))) ch.(c_lines))
                  [Emit (if (ch.(c_code) =? 0)%Z
                         then Finished true "Backup completed successfully"
                         else Finished false ("Backup failed: " ++ ch.(c_err)))]),
        Ok tt)) /\
  (forall (lib : Lib) (sys : Sys) (ui : UI) (fuel : nat) (g : GUI) (r : nat) (bid n : string)
          (P : BackupProfile) (res : Completed) (es1 : list effect) (f : string) (ch : Child)
          (k : nat),
     ui.(selected_row) = Some r -> item_text g r = Ok bid ->
     g.(current_profile_name) = Some n -> truthy n = true -> assoc n g.(profiles) = Some P ->
     truthy ui.(dir_choice) = true ->
     sys.(run) (files_cmd bid (config_of P)) (password_env g (config_of P)) = Ok res ->
     res.(returncode) = 0%Z ->
     select_file lib ui res.(stdout) g = (g, es1, Ok (Some f)) ->
     sys.(popen) ["proxmox-backup-client"; "restore"; bid; f; ui.(dir_choice);
                  "--repository"; P.(repository)] (password_env g (config_of P)) = Ok ch ->
     ui.(cancel_from) = Some k -> (k < ch.(c_alive))%nat -> (k < fuel)%nat ->
     restore_archive lib sys ui fuel g
     = (g, app (Spawn (files_cmd bid (config_of P)) (password_env g (config_of P)) :: es1)
             [Spawn ["proxmox-backup-client"; "restore"; bid; f; ui.(dir_choice);
                     "--repository"; P.(repository)] (password_env g (config_of P));
              Terminate ["proxmox-backup-client"; "restore"; bid; f; ui.(dir_choice);
                         "--repository"; P.(repository)];
              Warn "Cancelled" "Restore operation cancelled"],
        Ok tt)).
Proof.
  split; intros.
  - eapply worker_run_stream; eassumption.
  - eapply restore_archive_cancel; eassumption.
Qed.

(** C2, refuted: on failure the [finished] message is not the child's
    standard-error text ["boom"] but ["Backup failed: boom"]. *)
Lemma backup_failure_message_prefixed :
  last (effects_of (worker_run sample_lib (sample_sys 1) 10 sample_gui)) (Terminate [])
  = Emit (Finished false ("Backup failed: " ++ (sample_child 1).(c_err))) /\
  "Backup failed: " ++ (sample_child 1).(c_err) <> (sample_child 1).(c_err).
Proof. split; vm_compute; [reflexivity|discriminate]. Qed.

(** ** Validation before a run *)

Lemma mbind_ok {A B} (m : M A) (k : A -> M B) (g g1 : GUI) (es1 : list effect) (a : A) :
  m g = (g1, es1, Ok a) ->
  mbind m k g = let '(g2, es2, r) := k a g1 in (g2, app es1 es2, r).
Proof. intros H. unfold mbind. rewrite H. reflexivity. Qed.

Lemma mbind_silent {A B} (m : M A) (k : A -> M B) (g : GUI) (a : A) :
  m g = (g, [], Ok a) -> mbind m k g = k a g.
Proof. intros H. unfold mbind. rewrite H. destruct (k a g) as [[g2 es2] r]. reflexivity. Qed.

Lemma hd_effects_mbind {A B} (m : M A) (k : A -> M B) (g : GUI) (e : effect) :
  hd_error (effects_of (m g)) = Some e -> hd_error (effects_of (mbind m k g)) = Some e.
Proof.
  unfold mbind, effects_of. destruct (m g) as [[g1 es1] r]. simpl. intros H.
  destruct es1 as [|e1 es1]; [discriminate|].
  destruct r as [a|x]; [destruct (k a g1) as [[g2 es2] r2]|]; exact H.
Qed.

Lemma hd_effects_try {A} (m : M A) (h : exc -> M A) (g : GUI) (e : effect) :
  hd_error (effects_of (m g)) = Some e -> hd_error (effects_of (try_except m h g)) = Some e.
Proof.
  unfold try_except, effects_of. destruct (m g) as [[g1 es1] r]. simpl. intros H.
  destruct es1 as [|e1 es1]; [discriminate|].
  destruct r as [a|x]; [|destruct (h x g1) as [[g2 es2] r2]]; exact H.
Qed.

Lemma hd_spawns (es : list effect) (a : list string) (v : list (string * string)) :
  hd_error es = Some (Spawn a v) -> hd_error (spawns es) = Some (a, v).
Proof. destruct es as [|e es]; simpl; [discriminate|]. intros H. injection H as ->. reflexivity. Qed.

Lemma current_config_of (g : GUI) (n : string) (P : BackupProfile) :
  g.(current_profile_name) = Some n -> truthy n = true -> assoc n g.(profiles) = Some P ->
  get_current_config g = Ok (Some (config_of P)).
Proof.
  intros Hn Ht HP. unfold get_current_config. rewrite Hn, Ht. unfold getitem. rewrite HP.
  reflexivity.
Qed.

(** C3 (as the code has it): only the backup validates the profile.
    With no profile selected, or a profile without sources, repository
    or API key, [start_backup] shows one warning, leaves the state as it
    was, starts no worker and answers [False]; the connection test with
    an empty repository or API key field shows one warning and spawns
    nothing.  Refresh, restore, mount and forget do not validate: for any
    current profile, also one with no source or an empty repository or
    API key, the first process each of them spawns is the client
    ([snapshot list], [snapshot files] for restore and mount, [snapshot
    forget]), once the user has chosen a snapshot and, for restore and
    mount, a directory, and confirmed a deletion. *)
Theorem incomplete_profile_rejected (g : GUI) :
  (truthy_opt g.(current_profile_name) = false ->
     start_backup g = (g, [Warn "Error" "No profile selected"], Ok false)) /\
  (forall n P, g.(current_profile_name) = Some n -> truthy n = true ->
     assoc n g.(profiles) = Some P ->
     P.(backup_sources) = [] \/ P.(repository) = "" \/ P.(api_key) = "" ->
     exists msg, start_backup g = (g, [Warn "Error" msg], Ok false)) /\
  (forall lib sys, g.(repo_edit) = "" \/ g.(api_edit) = "" ->
     test_connection lib sys g
     = (g, [Warn "Error" "Please enter both repository and API key"], Ok tt)) /\
  (forall lib sys ui fuel n P, g.(current_profile_name) = Some n -> truthy n = true ->
     assoc n g.(profiles) = Some P ->
     let env := setitem g.(environ) "PBS_PASSWORD" P.(api_key) in
     hd_error (spawns (effects_of (refresh_archives lib sys g)))
       = Some (["proxmox-backup-client"; "snapshot"; "list"; "--repository"; P.(repository);
                "--output-format"; "json"], env) /\
     (forall r backup_id, ui.(selected_row) = Some r -> item_text g r = Ok backup_id ->
        (truthy ui.(dir_choice) = true ->
           hd_error (spawns (effects_of (restore_archive lib sys ui fuel g)))
             = Some (files_cmd backup_id (config_of P), env) /\
           (truthy_opt g.(current_mount) = false ->
              hd_error (spawns (effects_of (mount_archive lib sys ui g)))
                = Some (files_cmd backup_id (config_of P), env))) /\
        (ui.(confirm_yes) = true ->
           hd_error (spawns (effects_of (delete_archive lib sys ui g)))
             = Some (["proxmox-backup-client"; "snapshot"; "forget"; backup_id;
                      "--repository"; P.(repository)], env)))).
Proof.
  split; [|split; [|split]].
  - intros H. unfold start_backup, validate_config, mbind, get, emit, ret.
    rewrite H. reflexivity.
  - intros n P Hn Ht HP Hinc.
    unfold start_backup, validate_config, mbind, get, emit, ret, lift, truthy_opt.
    rewrite Hn, Ht. unfold getitem. rewrite HP. simpl.
    destruct P as [nm repo key fp srcs]; simpl in *.
    destruct srcs as [|s srcs]; [eexists; reflexivity|].
    destruct Hinc as [Hs|[Hr|Hk]]; [discriminate| |].
    + subst repo. eexists; reflexivity.
    + subst key. destruct (truthy repo); simpl; eexists; reflexivity.
  - intros lib sys H. unfold test_connection, mbind, get.
    destruct H as [H|H]; rewrite H; simpl; [reflexivity|].
    rewrite orb_true_r. reflexivity.
  - intros lib sys ui fuel n P Hn Ht HP env.
    pose proof (current_config_of g n P Hn Ht HP) as Hc.
    split; [|intros r backup_id Hsel Hit; split; [intros Hd; split; [|intros Hm]|intros Hy]];
      apply hd_spawns.
    + unfold refresh_archives. apply hd_effects_try.
      rewrite (mbind_silent _ _ g g) by reflexivity. cbv beta.
      rewrite (mbind_silent _ _ g (Some (config_of P))) by (unfold lift; rewrite Hc; reflexivity).
      cbv beta. rewrite (mbind_silent _ _ g (config_of P)) by reflexivity. cbv beta zeta.
      apply hd_effects_mbind. unfold run_proc. apply hd_effects_mbind. reflexivity.
    + unfold restore_archive. rewrite Hsel.
      rewrite (mbind_silent _ _ g g) by reflexivity. cbv beta.
      rewrite (mbind_silent _ _ g backup_id) by (unfold lift; rewrite Hit; reflexivity).
      cbv beta. apply hd_effects_try.
      rewrite (mbind_silent _ _ g (Some (config_of P))) by (unfold lift; rewrite Hc; reflexivity).
      cbv beta zeta. rewrite Hd. cbn [negb].
      rewrite (mbind_silent _ _ g (config_of P)) by reflexivity. cbv beta zeta.
      apply hd_effects_mbind. unfold run_proc. apply hd_effects_mbind. reflexivity.
    + unfold mount_archive.
      rewrite (mbind_silent _ _ g g) by reflexivity. cbv beta. rewrite Hm, Hsel.
      rewrite (mbind_silent _ _ g g) by reflexivity. cbv beta.
      rewrite (mbind_silent _ _ g backup_id) by (unfold lift; rewrite Hit; reflexivity).
      cbv beta. apply hd_effects_try.
      rewrite (mbind_silent _ _ g (Some (config_of P))) by (unfold lift; rewrite Hc; reflexivity).
      cbv beta zeta. rewrite Hd. cbn [negb].
      rewrite (mbind_silent _ _ g (config_of P)) by reflexivity. cbv beta zeta.
      apply hd_effects_mbind. unfold run_proc. apply hd_effects_mbind. reflexivity.
    + unfold delete_archive. rewrite Hsel.
      rewrite (mbind_silent _ _ g g) by reflexivity. cbv beta.
      rewrite (mbind_silent _ _ g backup_id) by (unfold lift; rewrite Hit; reflexivity).
      cbv beta. rewrite Hy. cbn [negb]. apply hd_effects_try.
      rewrite (mbind_silent _ _ g (Some (config_of P))) by (unfold lift; rewrite Hc; reflexivity).
      cbv beta. rewrite (mbind_silent _ _ g (config_of P)) by reflexivity. cbv beta zeta.
      apply hd_effects_mbind. unfold run_proc. apply hd_effects_mbind. reflexivity.
Qed.

(** C3, refuted: a profile with no source is rejected by the backup but
    the refresh of the snapshot list still spawns the client. *)
Lemma refresh_spawns_without_sources :
  let g := set_state_profiles
             [("home", mkProfile "home" "backup@pbs@host:store" "secret-key" "AA:BB" [])]
             sample_gui in
  start_backup g = (g, [Warn "Error" "Please add at least one backup source"], Ok false) /\
  spawns (effects_of (refresh_archives sample_lib (sample_sys 0) g))
  = [(["proxmox-backup-client"; "snapshot"; "list"; "--repository"; "backup@pbs@host:store";
       "--output-format"; "json"], [("HOME", "/root"); ("PBS_PASSWORD", "secret-key")])].
Proof. split; vm_compute; reflexivity. Qed.

(** ** Credentials in the environment *)

(** C6, the failing input: the profile has the fingerprint ["AA:BB"]; the
    backup child gets [PBS_FINGERPRINT] but the child of the snapshot
    refresh gets only [PBS_PASSWORD]. *)
Lemma refresh_env_omits_fingerprint :
  sample_profile.(fingerprint) = "AA:BB" /\
  spawns (effects_of (refresh_archives sample_lib (sample_sys 0) sample_gui))
  = [(["proxmox-backup-client"; "snapshot"; "list"; "--repository"; "backup@pbs@host:store";
       "--output-format"; "json"], [("HOME", "/root"); ("PBS_PASSWORD", "secret-key")])] /\
  map snd (spawns (effects_of (worker_run sample_lib (sample_sys 0) 10 sample_gui)))
  = [[("HOME", "/root"); ("PBS_PASSWORD", "secret-key"); ("PBS_FINGERPRINT", "AA:BB")]].
Proof. split; [reflexivity|split; vm_compute; reflexivity]. Qed.

(** ** Choosing the archive of a snapshot *)









(** * The theorems at the sample data *)

Lemma get_backup_command_layout_witness :
  get_backup_command sample_gui =
    Ok (app ["proxmox-backup-client"; "backup"]
         (app (concat (map (fun s =>
                 (Py.basename (Py.rstrip_slash s.(path)) ++ "." ++ s.(archive_type)
                  ++ ":" ++ s.(path))
                 :: map (fun e => "--exclude=" ++ e) s.(exclusions))
               sample_profile.(backup_sources)))
           ["--repository"; sample_profile.(repository)]))
  /\ Forall (fun s => final_component s.(path) (Py.basename (Py.rstrip_slash s.(path))))
       sample_profile.(backup_sources).
Proof. apply (get_backup_command_layout sample_gui "home" sample_profile); reflexivity. Defined.

Lemma streaming_runs_ordered_witness :
  worker_run sample_lib (sample_sys 0) 10 sample_gui
  = (sample_gui,
     app [Emit (CommandReady ["proxmox-backup-client"; "backup"; "docs.pxar:/home/u/docs//";
                              "--exclude=*.tmp"; "--exclude=cache"; ".img:/"; "--repository";
                              "backup@pbs@host:store"]);
          Emit (Progress ("Running command: " ++
                  Py.join " " ["proxmox-backup-client"; "backup"; "docs.pxar:/home/u/docs//";
                               "--exclude=*.tmp"; "--exclude=cache"; ".img:/"; "--repository";
                               "backup@pbs@host:store"]));
          Spawn ["proxmox-backup-client"; "backup"; "docs.pxar:/home/u/docs//";
                 "--exclude=*.tmp"; "--exclude=cache"; ".img:/"; "--repository";
                 "backup@pbs@host:store"] (backup_env sample_gui (config_of sample_profile))]
       (app (map (fun s => Emit (Progress (Py.strip s))) ["l1"; " l2 "; "l3"])
            [Emit (Finished true "Backup completed successfully")]),
     Ok tt)
  /\
  restore_archive sample_lib (sample_sys 0) sample_cancel_ui 5 sample_refreshed
  = (sample_refreshed,
     app [Spawn (files_cmd "host/pc/1970-01-01T00:00:00Z" (config_of sample_profile))
                (password_env sample_refreshed (config_of sample_profile))]
       [Spawn ["proxmox-backup-client"; "restore"; "host/pc/1970-01-01T00:00:00Z"; "a.pxar";
               "/restore"; "--repository"; "backup@pbs@host:store"]
              (password_env sample_refreshed (config_of sample_profile));
        Terminate ["proxmox-backup-client"; "restore"; "host/pc/1970-01-01T00:00:00Z"; "a.pxar";
                   "/restore"; "--repository"; "backup@pbs@host:store"];
        Warn "Cancelled" "Restore operation cancelled"],
     Ok tt).
Proof.
  split.
  - apply (proj1 streaming_runs_ordered sample_lib (sample_sys 0) 10 sample_gui "home"
             sample_profile _ (sample_child 0)); try reflexivity.
    + repeat constructor; discriminate.
    + simpl. lia.
  - apply (proj2 streaming_runs_ordered sample_lib (sample_sys 0) sample_cancel_ui 5
             sample_refreshed 0 "host/pc/1970-01-01T00:00:00Z" "home" sample_profile
             (mkCompleted 0 "files" "err") [] "a.pxar" (sample_child 0) 0);
      try (vm_compute; reflexivity); simpl; lia.
Defined.

Lemma incomplete_profile_rejected_witness :
  let g := set_state_profiles
             [("home", mkProfile "home" "" "secret-key" "AA:BB" sample_profile.(backup_sources))]
             sample_gui in
  (exists msg, start_backup g = (g, [Warn "Error" msg], Ok false)) /\
  test_connection sample_lib (sample_sys 0) (set_state_table [] (mkGUI [] None None "" "" "" 0 [] None []))
  = (set_state_table [] (mkGUI [] None None "" "" "" 0 [] None []),
     [Warn "Error" "Please enter both repository and API key"], Ok tt) /\
  (let g0 := set_state_profiles
               [("home", mkProfile "home" "backup@pbs@host:store" "secret-key" "" [])]
               sample_refreshed in
   let P0 := mkProfile "home" "backup@pbs@host:store" "secret-key" "" [] in
   let env := setitem g0.(environ) "PBS_PASSWORD" "secret-key" in
   exists backup_id, item_text g0 0 = Ok backup_id /\
   hd_error (spawns (effects_of (refresh_archives sample_lib (sample_sys 0) g0)))
     = Some (["proxmox-backup-client"; "snapshot"; "list"; "--repository";
              "backup@pbs@host:store"; "--output-format"; "json"], env) /\
   hd_error (spawns (effects_of (restore_archive sample_lib (sample_sys 0) sample_ui 10 g0)))
     = Some (files_cmd backup_id (config_of P0), env) /\
   hd_error (spawns (effects_of (mount_archive sample_lib (sample_sys 0) sample_ui g0)))
     = Some (files_cmd backup_id (config_of P0), env) /\
   hd_error (spawns (effects_of (delete_archive sample_lib (sample_sys 0) sample_ui g0)))
     = Some (["proxmox-backup-client"; "snapshot"; "forget"; backup_id;
              "--repository"; "backup@pbs@host:store"], env)).
Proof.
  intros g. split; [|split].
  - apply (proj1 (proj2 (incomplete_profile_rejected g)) "home"
             (mkProfile "home" "" "secret-key" "AA:BB" sample_profile.(backup_sources)));
      try reflexivity.
    right; left; reflexivity.
  - apply (proj1 (proj2 (proj2 (incomplete_profile_rejected _)))). left; reflexivity.
  - intros g0 P0 env. eexists. split; [vm_compute; reflexivity|].
    destruct (proj2 (proj2 (proj2 (incomplete_profile_rejected g0)))
                sample_lib (sample_sys 0) sample_ui 10 "home" P0 eq_refl eq_refl eq_refl)
      as [Hr Hops].
    destruct (Hops 0%nat _ eq_refl (ltac:(vm_compute; reflexivity))) as [Hrm Hdel].
    destruct (Hrm eq_refl) as [Hrs Hmt].
    split; [exact Hr|]. split; [exact Hrs|]. split; [exact (Hmt eq_refl)|exact (Hdel eq_refl)].
Defined.

Lemma mount_slot_exclusive_witness :
  sample_mounted.(current_mount) = Some "/mnt/x" /\
  mount_archive sample_lib (sample_sys 0) sample_ui sample_mounted
  = (sample_mounted, [Warn "Error" ("An archive is already mounted at " ++ "/mnt/x")], Ok tt).
Proof.
  split; [vm_compute; reflexivity|].
  apply (proj1 (mount_slot_exclusive sample_mounted
                  (reach_step _ _ (reach_step _ _ (reach_init sample_gui eq_refl)
                                     (step_refresh sample_lib (sample_sys 0) sample_gui))
                     (step_mount sample_lib (sample_sys 0) sample_ui _)))).
  vm_compute; reflexivity.
Defined.

Lemma unmount_current_spec_witness :
  exists es,
    unmount_current sample_lib (sample_sys 1) sample_mounted
    = (sample_mounted, Spawn ["fusermount"; "-u"; "/mnt/x"] sample_mounted.(environ) :: es, Ok tt).
Proof.
  destruct (proj2 (unmount_current_spec sample_lib (sample_sys 1) sample_mounted) "/mnt/x")
    as [es Hes]; [vm_compute; reflexivity|reflexivity|].
  exists es. rewrite Hes. reflexivity.
Defined.

Lemma refresh_failure_keeps_catalog_witness :
  state_of (refresh_archives sample_lib (sample_sys 1) sample_mounted) = sample_mounted /\
  (state_of (refresh_archives sample_lib (sample_sys 1) sample_mounted)).(archives_table)
  = sample_mounted.(archives_table) /\
  (state_of (refresh_archives sample_lib (sample_sys 1) sample_mounted)).(archive_data)
  = sample_mounted.(archive_data).
Proof.
  apply refresh_failure_keeps_catalog.
  intros cmd env res H. left. simpl in H. injection H as <-. discriminate.
Defined.



Lemma edit_exclusions_trimmed_lines_witness :
  (exists g' es P',
    edit_exclusions sample_lib sample_ui sample_gui = (g', es, Ok tt) /\
    assoc "home" g'.(profiles) = Some P' /\
    nth_error P'.(backup_sources) 0
      = Some (mkSource "/home/u/docs//" "pxar"
                (exclusion_lines ("  *.tmp " ++ String "010" (String "010" " cache ")))) /\
    exclusion_lines ("  *.tmp " ++ String "010" (String "010" " cache "))
      = map Py.strip (filter (fun line => truthy (Py.strip line))
                        (Py.split_nl ("  *.tmp " ++ String "010" (String "010" " cache ")))) /\
    Py.join (String "010" "") (Py.split_nl ("  *.tmp " ++ String "010" (String "010" " cache ")))
      = "  *.tmp " ++ String "010" (String "010" " cache ") /\
    Forall (fun line => ~ In "010"%char (list_ascii_of_string line))
      (Py.split_nl ("  *.tmp " ++ String "010" (String "010" " cache "))) /\
    Forall (fun e => e <> "" /\ trimmed e)
      (exclusion_lines ("  *.tmp " ++ String "010" (String "010" " cache ")))) /\
  exclusion_lines ("  *.tmp " ++ String "010" (String "010" " cache ")) = ["*.tmp"; "cache"].
Proof.
  split; [|vm_compute; reflexivity].
  apply (edit_exclusions_trimmed_lines sample_lib sample_ui sample_gui "home" sample_profile 0
           (mkSource "/home/u/docs//" "pxar" ["*.tmp"; "cache"])); reflexivity.
Defined.

(** * Further properties of the code *)

(** ** Serialising the profiles *)

Lemma json_strs_map (l : list string) : json_strs (map JStr l) = Ok l.
Proof. induction l as [|s r IH]; simpl; [reflexivity|]. rewrite IH. reflexivity. Qed.

Lemma source_from_to_dict (s : BackupSource) : source_from_dict (source_to_dict s) = Ok s.
Proof.
  destruct s as [p t ex]. unfold source_from_dict, source_to_dict. simpl.
  destruct ex as [|e r]; simpl; [reflexivity|]. rewrite json_strs_map. reflexivity.
Qed.

Lemma sources_from_to_dicts (l : list BackupSource) :
  sources_from_dicts (map source_to_dict l) = Ok l.
Proof.
  induction l as [|s r IH]; simpl; [reflexivity|].
  rewrite source_from_to_dict. simpl. rewrite IH. reflexivity.
Qed.

Lemma profile_from_to_dict (p : BackupProfile) :
  profile_from_dict (profile_to_dict p) = Ok p.
Proof.
  destruct p as [nm repo key fp srcs]. unfold profile_from_dict, profile_to_dict. simpl.
  rewrite sources_from_to_dicts. reflexivity.
Qed.

(** [BackupProfile.from_dict] reads back what [BackupProfile.to_dict]
    writes: every field, and the sources with their exclusions, in order. *)
Theorem profile_dict_roundtrip (p : BackupProfile) :
  profile_from_dict (profile_to_dict p) = Ok p.
Proof.
  destruct p as [nm repo key fp srcs]. unfold profile_from_dict, profile_to_dict.
  cbn [json_get json_getitem getitem assoc String.eqb Ascii.eqb Bool.eqb json_iter bind json_str].
  rewrite sources_from_to_dicts. reflexivity.
Qed.

Lemma assoc_notin {V} (k : string) (d : list (string * V)) :
  ~ In k (map fst d) -> assoc k d = None.
Proof.
  induction d as [|[k' v'] r IH]; simpl; intros H; [reflexivity|].
  destruct (String.eqb_spec k k') as [->|_]; [exfalso; auto|]. apply IH. auto.
Qed.

Lemma setitem_fresh {V} (d : list (string * V)) (k : string) (v : V) :
  assoc k d = None -> setitem d k v = app d [(k, v)].
Proof.
  induction d as [|[k' v'] r IH]; simpl; intros H; [reflexivity|].
  destruct (String.eqb k k'); [discriminate|]. rewrite IH by exact H. reflexivity.
Qed.

Lemma set_state_profiles_twice (ps qs : list (string * BackupProfile)) (g : GUI) :
  set_state_profiles qs (set_state_profiles ps g) = set_state_profiles qs g.
Proof. destruct g; reflexivity. Qed.

Lemma load_each_dicts (qs : list (string * BackupProfile)) :
  forall (acc : list (string * BackupProfile)) (g : GUI),
  NoDup (map fst (app acc qs)) -> Forall (fun kp => (snd kp).(name) = fst kp) qs ->
  load_each (map (fun kp => profile_to_dict (snd kp)) qs) (set_state_profiles acc g)
  = (set_state_profiles (app acc qs) g, [], Ok tt).
Proof.
  induction qs as [|[k p] r IH]; intros acc g Hnd Hn; simpl.
  - rewrite app_nil_r. reflexivity.
  - inversion Hn as [|? ? Hk Hr]; subst. simpl in Hk.
    unfold mbind, lift, modify. rewrite profile_from_to_dict. simpl.
    rewrite Hk, setitem_fresh.
    + rewrite set_state_profiles_twice.
      replace (app acc ((k, p) :: r)) with (app (app acc [(k, p)]) r)
        by (rewrite <- app_assoc; reflexivity).
      rewrite IH; [reflexivity| |exact Hr].
      rewrite <- app_assoc. exact Hnd.
    + apply assoc_notin. rewrite map_app in Hnd. simpl in Hnd.
      apply NoDup_remove_2 in Hnd. intros Hin. apply Hnd. apply in_or_app. left. exact Hin.
Qed.

(** Loading the data [save_settings] writes (the profiles in their
    order, each under its own name, no name twice) gives back exactly
    those profiles, in that order, with the first one current, and shows
    no message. *)
Theorem load_config_roundtrip (lib : Lib) (g : GUI) (k : string) (p : BackupProfile)
    (ps : list (string * BackupProfile)) :
  NoDup (map fst ((k, p) :: ps)) -> Forall (fun kp => (snd kp).(name) = fst kp) ((k, p) :: ps) ->
  load_config lib true (Ok (config_data ((k, p) :: ps))) g
  = (set_state_current (Some k) (set_state_profiles ((k, p) :: ps) g), [], Ok tt).
Proof.
  intros Hnd Hn.
  unfold load_config, try_except, mbind, lift, modify, get, skip, ret.
  cbn [json_truthy config_data assoc String.eqb Ascii.eqb Bool.eqb json_get json_iter bind].
  rewrite (load_each_dicts ((k, p) :: ps) [] g Hnd Hn). reflexivity.
Qed.

(** A config file in the old format (a non-empty mapping without a
    ["profiles"] key) is migrated to the single profile ["Default"],
    with the file's [repository] and [api_key] (empty when missing) and
    its [backup_sources] (none when missing); an old [fingerprint] is not
    carried over.  The profile becomes current and no message is shown. *)
Theorem load_config_migrates_old_format (lib : Lib) (fs : list (string * json))
    (repo key : string) (srcs : list BackupSource) (g : GUI) :
  fs <> [] -> assoc "profiles" fs = None ->
  json_get (JObj fs) "repository" (JStr "") = Ok (JStr repo) ->
  json_get (JObj fs) "api_key" (JStr "") = Ok (JStr key) ->
  json_get (JObj fs) "backup_sources" (JArr []) = Ok (JArr (map source_to_dict srcs)) ->
  load_config lib true (Ok (JObj fs)) g
  = (set_state_current (Some "Default")
       (set_state_profiles [("Default", mkProfile "Default" repo key "" srcs)] g), [], Ok tt).
Proof.
  intros Hne Hp Hr Hk Hs. simpl in Hr, Hk, Hs.
  injection Hr as Hr. injection Hk as Hk. injection Hs as Hs.
  destruct fs as [|f fs']; [contradiction|].
  unfold load_config, try_except, mbind, lift, modify, get, skip, ret.
  cbn [json_truthy]. rewrite Hp, Hs, Hr, Hk.
  cbn [json_get assoc String.eqb Ascii.eqb Bool.eqb json_iter bind load_each].
  unfold mbind, lift, modify, profile_from_dict.
  cbn [json_get json_getitem getitem assoc String.eqb Ascii.eqb Bool.eqb json_iter bind].
  rewrite sources_from_to_dicts. reflexivity.
Qed.

(** ** Saving the settings and editing the sources *)

Lemma setitem_keys {V} (d : list (string * V)) (k : string) (v : V) :
  assoc k d <> None -> map fst (setitem d k v) = map fst d.
Proof.
  induction d as [|[k' v'] r IH]; simpl; intros H; [contradiction|].
  destruct (String.eqb k k'); simpl; [reflexivity|]. rewrite IH by exact H. reflexivity.
Qed.

Lemma assoc_setitem_other {V} (d : list (string * V)) (k k' : string) (v : V) :
  k' <> k -> assoc k' (setitem d k v) = assoc k' d.
Proof.
  intros Hne. induction d as [|[k0 v0] r IH]; simpl.
  - destruct (String.eqb_spec k' k); [contradiction|reflexivity].
  - destruct (String.eqb_spec k k0) as [->|Hk]; simpl.
    + destruct (String.eqb_spec k' k0); [contradiction|reflexivity].
    + rewrite IH. reflexivity.
Qed.

(** [save_settings] with a current profile [n] writes the settings fields
    (repository, API key, fingerprint) into that profile only, keeping
    its name and sources; the profile names stay the same and in the same
    order, every other profile is unchanged, and exactly these profiles
    are written to the config file, with no message. *)
Theorem save_settings_updates_current (lib : Lib) (g : GUI) (n : string) (p : BackupProfile) :
  g.(current_profile_name) = Some n -> n <> "" -> assoc n g.(profiles) = Some p ->
  exists ps',
    save_settings lib g = (set_state_profiles ps' g, save_effects lib ps', Ok tt) /\
    map fst ps' = map fst g.(profiles) /\
    assoc n ps' = Some (mkProfile p.(name) g.(repo_edit) g.(api_edit) g.(fingerprint_edit)
                          p.(backup_sources)) /\
    (forall k, k <> n -> assoc k ps' = assoc k g.(profiles)).
Proof.
  intros Hc Hn Hp.
  exists (setitem g.(profiles) n (with_settings g p p.(backup_sources))).
  split; [|split; [|split]].
  - unfold save_settings, try_except, mbind, get, lift, modify, emit, skip, ret, getitem.
    rewrite Hc, Hp. unfold truthy.
    destruct (String.eqb_spec n "") as [E|_]; [contradiction|]. simpl.
    unfold save_effects. destruct (write_config lib _); reflexivity.
  - apply setitem_keys. rewrite Hp. discriminate.
  - apply assoc_setitem_same.
  - intros k Hk. apply assoc_setitem_other. exact Hk.
Qed.

(** When the current profile name is not among the profiles,
    [save_settings] writes nothing: it changes no state and only warns
    with the [KeyError]. *)
Theorem save_settings_missing_profile (lib : Lib) (g : GUI) (n : string) :
  g.(current_profile_name) = Some n -> n <> "" -> assoc n g.(profiles) = None ->
  save_settings lib g =
  (g, [Warn "Error" ("Failed to save settings: " ++ lib.(str_exc) KeyError)], Ok tt).
Proof.
  intros Hc Hn Hp.
  unfold save_settings, try_except, mbind, get, lift, modify, emit, skip, ret, getitem.
  rewrite Hc, Hp. unfold truthy.
  destruct (String.eqb_spec n "") as [E|_]; [contradiction|]. simpl. reflexivity.
Qed.

Lemma setitem_twice {V} (d : list (string * V)) (k : string) (v w : V) :
  setitem (setitem d k v) k w = setitem d k w.
Proof.
  induction d as [|[k' v'] r IH]; simpl.
  - rewrite String.eqb_refl. reflexivity.
  - destruct (String.eqb k k') eqn:E; simpl; rewrite E; [reflexivity|]. rewrite IH. reflexivity.
Qed.

Lemma pop_nth_last {A} (l : list A) (x : A) : pop_nth (List.length l) (app l [x]) = Ok l.
Proof. induction l as [|y r IH]; simpl; [reflexivity|]. rewrite IH. reflexivity. Qed.

Lemma save_settings_ok (lib : Lib) (g : GUI) (n : string) (p : BackupProfile) :
  g.(current_profile_name) = Some n -> n <> "" -> assoc n g.(profiles) = Some p ->
  save_settings lib g =
  (set_state_profiles (setitem g.(profiles) n (with_settings g p p.(backup_sources))) g,
   save_effects lib (setitem g.(profiles) n (with_settings g p p.(backup_sources))), Ok tt).
Proof.
  intros Hc Hn Hp.
  unfold save_settings, try_except, mbind, get, lift, modify, emit, skip, ret, getitem.
  rewrite Hc, Hp. unfold truthy.
  destruct (String.eqb_spec n "") as [E|_]; [contradiction|]. simpl.
  unfold save_effects. destruct (write_config lib _); reflexivity.
Qed.

Lemma add_source_ok (lib : Lib) (g : GUI) (n : string) (p : BackupProfile)
    (path archive_type : string) :
  g.(current_profile_name) = Some n -> n <> "" -> assoc n g.(profiles) = Some p ->
  path <> "" ->
  let ps' := setitem g.(profiles) n
               (with_settings g p (app p.(backup_sources) [mkSource path archive_type []])) in
  add_source lib path archive_type g =
  (set_state_row (-1) (set_state_profiles ps' g), save_effects lib ps', Ok tt).
Proof.
  intros Hc Hn Hp Hpath ps'.
  unfold add_source. unfold get at 1. rewrite (mbind_ok _ _ g g [] g) by reflexivity.
  cbv beta zeta. unfold truthy_opt, truthy. rewrite Hc.
  destruct (String.eqb_spec n "") as [E|_]; [contradiction|].
  destruct (String.eqb_spec path "") as [E|_]; [contradiction|]. cbn [negb].
  rewrite (mbind_ok _ _ g g [] p) by (unfold lift, getitem; rewrite Hp; reflexivity).
  rewrite (mbind_ok _ _ g _ [] tt) by reflexivity.
  rewrite (mbind_ok _ _ _ _ [] tt) by reflexivity.
  rewrite (save_settings_ok lib _ n (add_sources p [mkSource path archive_type []])).
  - simpl. rewrite setitem_twice. reflexivity.
  - exact Hc.
  - exact Hn.
  - simpl. apply assoc_setitem_same.
Qed.

Lemma remove_source_ok (lib : Lib) (g : GUI) (n : string) (p : BackupProfile) (i : nat)
    (srcs : list BackupSource) :
  g.(current_profile_name) = Some n -> n <> "" -> assoc n g.(profiles) = Some p ->
  g.(sources_row) = Z.of_nat i -> pop_nth i p.(backup_sources) = Ok srcs ->
  let ps' := setitem g.(profiles) n (with_settings g p srcs) in
  remove_source lib g =
  (set_state_row (-1) (set_state_profiles ps' g), save_effects lib ps', Ok tt).
Proof.
  intros Hc Hn Hp Hr Hpop ps'.
  unfold remove_source. unfold get at 1. rewrite (mbind_ok _ _ g g [] g) by reflexivity.
  cbv beta zeta. unfold truthy_opt, truthy. rewrite Hc, Hr.
  destruct (String.eqb_spec n "") as [E|_]; [contradiction|].
  replace (0 <=? Z.of_nat i)%Z with true by (symmetry; apply Z.leb_le; lia).
  cbn [negb]. rewrite Nat2Z.id.
  rewrite (mbind_ok _ _ g g [] p) by (unfold lift, getitem; rewrite Hp; reflexivity).
  rewrite (mbind_ok _ _ g g [] srcs) by (unfold lift; rewrite Hpop; reflexivity).
  rewrite (mbind_ok _ _ g _ [] tt) by reflexivity.
  rewrite (mbind_ok _ _ _ _ [] tt) by reflexivity.
  rewrite (save_settings_ok lib _ n
             (mkProfile p.(name) p.(repository) p.(api_key) p.(fingerprint) srcs)).
  - simpl. rewrite setitem_twice. reflexivity.
  - exact Hc.
  - exact Hn.
  - simpl. apply assoc_setitem_same.
Qed.

(** [add_source] with a current profile [n] and a non-empty path appends
    the source [path] (of the selected archive type, no exclusions) at the
    end of that profile's sources; as [save_settings] runs next, the
    profile also takes the settings fields.  The other profiles and the
    profile names are unchanged, no source stays selected, and the
    profiles are written once. *)
Theorem add_source_appends (lib : Lib) (g : GUI) (n : string) (p : BackupProfile)
    (path archive_type : string) :
  g.(current_profile_name) = Some n -> n <> "" -> assoc n g.(profiles) = Some p ->
  path <> "" ->
  exists ps',
    add_source lib path archive_type g =
      (set_state_row (-1) (set_state_profiles ps' g), save_effects lib ps', Ok tt) /\
    assoc n ps' = Some (mkProfile p.(name) g.(repo_edit) g.(api_edit) g.(fingerprint_edit)
                          (app p.(backup_sources) [mkSource path archive_type []])) /\
    map fst ps' = map fst g.(profiles) /\
    (forall k, k <> n -> assoc k ps' = assoc k g.(profiles)).
Proof.
  intros Hc Hn Hp Hpath.
  eexists. split; [exact (add_source_ok lib g n p path archive_type Hc Hn Hp Hpath)|].
  split; [apply assoc_setitem_same|]. split.
  - apply setitem_keys. rewrite Hp. discriminate.
  - intros k Hk. apply assoc_setitem_other. exact Hk.
Qed.

(** [add_source] with an empty path adds nothing and writes nothing: it
    only warns when a profile is current, and does nothing otherwise. *)
Theorem add_source_empty_path (lib : Lib) (g : GUI) (archive_type : string) :
  add_source lib "" archive_type g =
  (g, (if truthy_opt g.(current_profile_name)
       then [Warn "Error" "Please specify a source path"] else []), Ok tt).
Proof.
  unfold add_source, mbind, get, emit, skip, ret.
  destruct (truthy_opt (current_profile_name g)); reflexivity.
Qed.

(** Adding a source and then removing it (the user selects the new, last
    row of the list) gives back the profile's sources: the profiles end as
    after a plain [save_settings], and no source is selected. *)
Theorem add_then_remove_source (lib : Lib) (g : GUI) (n : string) (p : BackupProfile)
    (path archive_type : string) :
  g.(current_profile_name) = Some n -> n <> "" -> assoc n g.(profiles) = Some p ->
  path <> "" ->
  state_of ((add_source lib path archive_type ;;;
             modify (set_state_row (Z.of_nat (List.length p.(backup_sources)))) ;;;
             remove_source lib) g)
  = set_state_row (-1)
      (set_state_profiles (setitem g.(profiles) n (with_settings g p p.(backup_sources))) g).
Proof.
  intros Hc Hn Hp Hpath. unfold state_of.
  rewrite (mbind_ok _ _ g _ _ tt (add_source_ok lib g n p path archive_type Hc Hn Hp Hpath)).
  rewrite (mbind_ok _ _ _ _ [] tt) by reflexivity.
  rewrite (remove_source_ok lib _ n
             (with_settings g p (app p.(backup_sources) [mkSource path archive_type []]))
             (List.length p.(backup_sources)) p.(backup_sources)).
  - simpl. rewrite setitem_twice. destruct g; reflexivity.
  - exact Hc.
  - exact Hn.
  - apply assoc_setitem_same.
  - reflexivity.
  - apply pop_nth_last.
Qed.

(** ** Closing the window *)

Lemma unmount_current_never_raises (lib : Lib) (sys : Sys) (g : GUI) :
  exists g' es, unmount_current lib sys g = (g', es, Ok tt) /\
                forall t msg, In (Warn t msg) es -> t = "Error".
Proof.
  unfold unmount_current, mbind, get, emit, lift, try_except, run_proc, modify.
  destruct (current_mount g) as [m|]; simpl.
  - destruct (negb (truthy m)); simpl.
    + eexists _, _. split; [reflexivity|]. intros t msg [H|[]]; discriminate.
    + destruct (run sys ["fusermount"; "-u"; m] (environ g)) as [res|e]; simpl.
      * destruct (returncode res =? 0)%Z; simpl;
          (eexists _, _; split; [reflexivity|]);
          intros t msg H; repeat destruct H as [H|H]; try discriminate; try contradiction;
          injection H; auto.
      * eexists _, _. split; [reflexivity|].
        intros t msg H; repeat destruct H as [H|H]; try discriminate; try contradiction;
          injection H; auto.
  - eexists _, _. split; [reflexivity|]. intros t msg [H|[]]; discriminate.
Qed.

(** Closing the window unmounts a mounted archive exactly as the unmount
    button does (a [fusermount -u] run, with its messages) and does
    nothing when no archive is mounted.  As [unmount_current] handles
    every failure itself, the "Failed to unmount archive on exit" warning
    of [closeEvent] is never shown: every warning it gives is titled
    "Error". *)
Theorem close_event_unmounts (lib : Lib) (sys : Sys) (g : GUI) :
  close_event lib sys g
  = (if truthy_opt g.(current_mount) then unmount_current lib sys g else (g, [], Ok tt)) /\
  (forall t msg, In (Warn t msg) (effects_of (close_event lib sys g)) -> t = "Error").
Proof.
  destruct (unmount_current_never_raises lib sys g) as (g' & es & Hu & Hw).
  assert (E : close_event lib sys g
              = (if truthy_opt g.(current_mount) then unmount_current lib sys g
                 else (g, [], Ok tt))).
  { unfold close_event, mbind, get, skip, ret.
    destruct (truthy_opt (current_mount g)); [|reflexivity].
    unfold try_except. rewrite Hu. reflexivity. }
  split; [exact E|]. rewrite E.
  destruct (truthy_opt (current_mount g)); [rewrite Hu; exact Hw|].
  intros t msg [].
Qed.

(** ** Operations without a profile, a selection or a confirmation *)

Lemma get_current_config_none (g : GUI) :
  truthy_opt g.(current_profile_name) = false -> get_current_config g = Ok None.
Proof.
  unfold get_current_config, truthy_opt. destruct (current_profile_name g) as [n|]; [|reflexivity].
  intros H. rewrite H. reflexivity.
Qed.

(** With no current profile a catalog refresh starts no process and keeps
    the whole state (table and [archive_data] included): [config['api_key']]
    on the empty config raises [KeyError], which is reported as an
    unexpected error. *)
Theorem refresh_without_profile (lib : Lib) (sys : Sys) (g : GUI) :
  truthy_opt g.(current_profile_name) = false ->
  refresh_archives lib sys g
  = (g, [Warn "Error" ("Unexpected error when fetching archives: " ++ lib.(str_exc) KeyError)],
     Ok tt).
Proof.
  intros H. unfold refresh_archives, try_except, mbind, get, lift, emit.
  rewrite (get_current_config_none g H). reflexivity.
Qed.

(** With no current profile the backup worker starts no process and
    emits nothing but one [finished(False, "Error: ...")] signal. *)
Theorem backup_without_profile (lib : Lib) (sys : Sys) (fuel : nat) (g : GUI) :
  truthy_opt g.(current_profile_name) = false ->
  worker_run lib sys fuel g
  = (g, [Emit (Finished false ("Error: " ++ lib.(str_exc) KeyError))], Ok tt).
Proof.
  intros H. unfold worker_run, try_except, mbind, get, lift, emit.
  rewrite (get_current_config_none g H). reflexivity.
Qed.

(** Restoring, mounting and deleting a selected archive do nothing at all
    (no process, no message, no state change) when the user cancels the
    directory dialog of a restore or mount (with no archive mounted yet),
    or does not confirm a deletion; this holds with or without a current
    profile ([get_current_config] only fails on a current name that is not
    a profile). *)
Theorem archive_actions_cancelled (lib : Lib) (sys : Sys) (ui : UI) (fuel : nat) (g : GUI)
    (r : nat) (backup_id : string) (c : option Config) :
  ui.(selected_row) = Some r -> item_text g r = Ok backup_id -> get_current_config g = Ok c ->
  (ui.(dir_choice) = "" -> restore_archive lib sys ui fuel g = (g, [], Ok tt)) /\
  (ui.(dir_choice) = "" -> truthy_opt g.(current_mount) = false ->
     mount_archive lib sys ui g = (g, [], Ok tt)) /\
  (ui.(confirm_yes) = false -> delete_archive lib sys ui g = (g, [], Ok tt)).
Proof.
  intros Hs Hi Hc. split; [|split].
  - intros Hd. unfold restore_archive. rewrite Hs.
    unfold try_except, mbind, get, lift. rewrite Hi, Hc, Hd. reflexivity.
  - intros Hd Hm. unfold mount_archive, mbind, get. rewrite Hm, Hs.
    unfold try_except, mbind, get, lift. rewrite Hi, Hc, Hd. reflexivity.
  - intros Hy. unfold delete_archive. rewrite Hs.
    unfold mbind, get, lift, skip, ret. rewrite Hi, Hy. reflexivity.
Qed.

(** [validate_config] on a current profile [P] changes nothing and
    answers whether [P] has a source, a repository and an API key (the
    stored profile, not the settings fields); it warns exactly when it
    answers [False] and [show_message] is set. *)
Theorem validate_config_current (show_message : bool) (g : GUI) (n : string)
    (P : BackupProfile) :
  g.(current_profile_name) = Some n -> n <> "" -> assoc n g.(profiles) = Some P ->
  let ok := negb (match P.(backup_sources) with [] => true | _ => false end)
            && truthy P.(repository) && truthy P.(api_key) in
  state_of (validate_config show_message g) = g /\
  snd (validate_config show_message g) = Ok ok /\
  (List.length (effects_of (validate_config show_message g))
   = if show_message && negb ok then 1 else 0)%nat.
Proof.
  intros Hc Hn Hp ok. subst ok.
  unfold validate_config, mbind, get, lift, ret, skip, emit, getitem, state_of, effects_of.
  unfold truthy_opt. rewrite Hc.
  replace (truthy n) with true
    by (unfold truthy; destruct (String.eqb_spec n "") as [E|_]; [contradiction|reflexivity]).
  cbn [negb]. rewrite Hp.
  destruct (backup_sources P), (truthy (repository P)), (truthy (api_key P)), show_message;
    simpl; repeat split.
Qed.

(** ** Environments of the child processes *)

Lemma pbs_env_vars (environ : list (string * string)) (key fp : string) :
  let env := setitem environ "PBS_PASSWORD" key in
  let env := if truthy fp then setitem env "PBS_FINGERPRINT" fp else env in
  assoc "PBS_PASSWORD" env = Some key /\
  assoc "PBS_FINGERPRINT" env
    = (if truthy fp then Some fp else assoc "PBS_FINGERPRINT" environ) /\
  (forall k, k <> "PBS_PASSWORD" -> k <> "PBS_FINGERPRINT" -> assoc k env = assoc k environ).
Proof.
  cbv zeta. destruct (truthy fp).
  - split; [|split].
    + rewrite assoc_setitem_other by discriminate. apply assoc_setitem_same.
    + apply assoc_setitem_same.
    + intros k H1 H2. rewrite !assoc_setitem_other by assumption. reflexivity.
  - split; [|split].
    + apply assoc_setitem_same.
    + apply assoc_setitem_other. discriminate.
    + intros k H1 H2. apply assoc_setitem_other. exact H1.
Qed.

(** The backup child gets the inherited environment with [PBS_PASSWORD]
    set to the profile's API key and, only when the profile has a
    fingerprint, [PBS_FINGERPRINT] set to it; with an empty fingerprint a
    [PBS_FINGERPRINT] inherited from the GUI's own environment is passed
    on unchanged.  Every other variable is inherited as is. *)
Theorem backup_env_vars (g : GUI) (config : Config) :
  assoc "PBS_PASSWORD" (backup_env g config) = Some config.(cfg_api_key) /\
  assoc "PBS_FINGERPRINT" (backup_env g config)
    = (if truthy config.(cfg_fingerprint) then Some config.(cfg_fingerprint)
       else assoc "PBS_FINGERPRINT" g.(environ)) /\
  (forall k, k <> "PBS_PASSWORD" -> k <> "PBS_FINGERPRINT" ->
     assoc k (backup_env g config) = assoc k g.(environ)).
Proof. exact (pbs_env_vars g.(environ) config.(cfg_api_key) config.(cfg_fingerprint)). Qed.

(** [test_connection] never changes the state.  With an empty repository
    or API key field it only warns; otherwise it first runs
    [proxmox-backup-client list] on the repository field, in the
    inherited environment with [PBS_PASSWORD] the API key field and
    [PBS_FINGERPRINT] the fingerprint field when that is not empty. *)
Theorem test_connection_runs_list (lib : Lib) (sys : Sys) (g : GUI) :
  state_of (test_connection lib sys g) = g /\
  (truthy g.(repo_edit) && truthy g.(api_edit) = false ->
   effects_of (test_connection lib sys g) = [Warn "Error" "Please enter both repository and API key"]) /\
  (truthy g.(repo_edit) && truthy g.(api_edit) = true ->
   exists env rest,
     effects_of (test_connection lib sys g)
     = Spawn ["proxmox-backup-client"; "list"; "--repository"; g.(repo_edit);
              "--output-format"; "json"] env :: rest /\
     assoc "PBS_PASSWORD" env = Some g.(api_edit) /\
     assoc "PBS_FINGERPRINT" env
       = (if truthy g.(fingerprint_edit) then Some g.(fingerprint_edit)
          else assoc "PBS_FINGERPRINT" g.(environ)) /\
     (forall k, k <> "PBS_PASSWORD" -> k <> "PBS_FINGERPRINT" ->
        assoc k env = assoc k g.(environ))).
Proof.
  unfold test_connection, state_of, effects_of, mbind, get, emit, try_except, run_proc, lift.
  destruct (truthy (repo_edit g)), (truthy (api_edit g)); simpl;
    [|repeat split; discriminate..].
  destruct (run sys _ _) as [res|e]; simpl;
    [destruct (returncode res =? 0)%Z; simpl|];
    (split; [reflexivity|]); (split; [discriminate|]); intros _;
    (eexists _, _; split; [reflexivity|]);
    exact (pbs_env_vars g.(environ) g.(api_edit) g.(fingerprint_edit)).
Qed.

(** ** The exclusions dialog *)

(** ** The archive files offered for restore and mount *)

Lemma string_length_app (a b : string) : String.length (a ++ b) = (String.length a + String.length b)%nat.
Proof. induction a as [|c r IH]; simpl; [reflexivity|]. rewrite IH. reflexivity. Qed.

Lemma substring_prefix (a b : string) : substring 0 (String.length a) (a ++ b) = a.
Proof. induction a as [|c r IH]; simpl; [destruct b; reflexivity|]. rewrite IH. reflexivity. Qed.

Lemma substring_suffix (a b : string) : substring (String.length a) (String.length b) (a ++ b) = b.
Proof.
  induction a as [|c r IH]; simpl; [|exact IH].
  induction b as [|c r IH]; simpl; [reflexivity|]. rewrite IH. reflexivity.
Qed.

Lemma substring_split (s : string) (k : nat) :
  (k <= String.length s)%nat ->
  substring 0 k s ++ substring k (String.length s - k) s = s.
Proof.
  revert k. induction s as [|c r IH]; intros k Hk; simpl in *.
  - destruct k; reflexivity.
  - destruct k as [|k]; simpl.
    + f_equal. pose proof (substring_prefix r "") as E.
      rewrite string_append_nil in E. exact E.
    + rewrite IH by lia. reflexivity.
Qed.

Lemma endswith_app (s suf : string) :
  Py.endswith s suf = true -> exists p, s = p ++ suf.
Proof.
  unfold Py.endswith. intros H. apply andb_prop in H as [Hle Heq].
  apply Nat.leb_le in Hle. apply String.eqb_eq in Heq.
  exists (substring 0 (String.length s - String.length suf) s).
  pose proof (substring_split s (String.length s - String.length suf)) as E.
  replace (String.length s - (String.length s - String.length suf))%nat
    with (String.length suf) in E by lia.
  rewrite Heq in E. symmetry. apply E. lia.
Qed.

Lemma endswith_app_true (p suf : string) : Py.endswith (p ++ suf) suf = true.
Proof.
  unfold Py.endswith. rewrite string_length_app.
  replace (String.length p + String.length suf - String.length suf)%nat with (String.length p)
    by lia.
  rewrite substring_suffix, String.eqb_refl. apply andb_true_intro. split; [|reflexivity].
  apply Nat.leb_le. lia.
Qed.

Lemma removesuffix_app (p suf : string) :
  suf <> "" -> Py.removesuffix (p ++ suf) suf = p.
Proof.
  intros Hs. unfold Py.removesuffix. rewrite endswith_app_true.
  destruct suf as [|c r]; [contradiction|]. simpl (String.length (String c r) =? 0)%nat.
  cbv iota. rewrite string_length_app.
  replace (String.length p + String.length (String c r) - String.length (String c r))%nat
    with (String.length p) by lia.
  apply substring_prefix.
Qed.

(** Every archive [restore_archive] and [mount_archive] offer from a
    snapshot's file list is the name of a listed [.pxar.didx] file
    without its [.didx]: it ends in [.pxar] and [f ++ ".didx"] is the
    [filename] of one of the listed files. *)
Theorem pxar_candidates_listed (files : list json) (fs : list string) :
  pxar_files_of (JArr files) = Ok fs ->
  Forall (fun f => Py.endswith f ".pxar" = true /\
                   exists file, In file files /\
                                json_getitem file "filename" = Ok (JStr (f ++ ".didx"))) fs.
Proof.
  simpl. revert fs. induction files as [|file r IH]; intros fs H; simpl in H.
  - injection H as <-. constructor.
  - destruct (json_getitem file "filename") as [fname|e] eqn:Ef; simpl in H; [|discriminate].
    destruct fname as [| | |s| |]; try discriminate.
    destruct (pxar_filter r) as [rest|e] eqn:Er; simpl in H; [|discriminate].
    injection H as <-.
    assert (Hr : Forall (fun f => Py.endswith f ".pxar" = true /\
                   exists x, In x (file :: r) /\
                     json_getitem x "filename" = Ok (JStr (f ++ ".didx"))) rest).
    { eapply Forall_impl; [|exact (IH rest eq_refl)].
      intros f (Hf & file' & Hin & Hg). split; [exact Hf|]. exists file'. split; [right; exact Hin|exact Hg]. }
    destruct (Py.endswith s ".pxar.didx") eqn:Ee; [|exact Hr].
    constructor; [|exact Hr].
    destruct (endswith_app _ _ Ee) as [p ->].
    replace (p ++ ".pxar.didx") with ((p ++ ".pxar") ++ ".didx")
      by (rewrite <- string_append_assoc; reflexivity).
    rewrite removesuffix_app by discriminate.
    split; [apply endswith_app_true|]. exists file. split; [left; reflexivity|].
    rewrite <- string_append_assoc. exact Ef.
Qed.

(** ** A refresh that fails while filling the table *)

Lemma set_state_table_same (g : GUI) : set_state_table g.(archives_table) g = g.
Proof. destruct g; reflexivity. Qed.

Lemma table_only_lift {A} (r : result A) : table_only (lift r).
Proof. intros g. unfold lift, state_of, effects_of. simpl. rewrite set_state_table_same. auto. Qed.

Lemma table_only_set_item (i j : nat) (c : cell) : table_only (set_item_st i j c).
Proof.
  intros g. unfold set_item_st, modify, state_of, effects_of, set_item. simpl.
  split; [reflexivity|split; [destruct g; reflexivity|apply length_replace_nth]].
Qed.

Lemma table_only_bind {A B} (m : M A) (k : A -> M B) :
  table_only m -> (forall a, table_only (k a)) -> table_only (mbind m k).
Proof.
  intros Hm Hk g. unfold mbind. destruct (Hm g) as (E1 & S1 & L1).
  unfold state_of, effects_of in *.
  destruct (m g) as [[g1 es1] [a|e]]; simpl in *.
  - destruct (Hk a g1) as (E2 & S2 & L2). unfold state_of, effects_of in *.
    destruct (k a g1) as [[g2 es2] r2]; simpl in *. subst es1 es2.
    split; [reflexivity|]. split.
    + rewrite S2, S1. destruct g; reflexivity.
    + rewrite L2, L1. reflexivity.
  - auto.
Qed.

Lemma table_only_render_row (lib : Lib) (i : nat) (a : json) : table_only (render_row lib i a).
Proof.
  unfold render_row.
  repeat (apply table_only_bind; [first [apply table_only_lift | apply table_only_set_item]|intros ?]).
  first [apply table_only_lift | apply table_only_set_item].
Qed.

Lemma table_only_for_enum (lib : Lib) (l : list json) :
  forall i, table_only (for_enum i l (render_row lib)).
Proof.
  induction l as [|a r IH]; intros i; simpl.
  - apply table_only_lift.
  - apply table_only_bind; [apply table_only_render_row|intros _; apply IH].
Qed.

Lemma render_row_no_time (lib : Lib) (i : nat) (fs : list (string * json)) (g : GUI) :
  assoc "backup-time" fs = None -> exists g' es e, render_row lib i (JObj fs) g = (g', es, Err e).
Proof.
  intros H. unfold render_row, mbind, lift, json_get. rewrite H. simpl. eauto.
Qed.

Lemma for_enum_fails (lib : Lib) (l : list json) (fs : list (string * json)) :
  In (JObj fs) l -> assoc "backup-time" fs = None ->
  forall i g, exists g' es e, for_enum i l (render_row lib) g = (g', es, Err e).
Proof.
  intros Hin Hbt. induction l as [|a r IH]; [destruct Hin|]. intros i g. simpl.
  unfold mbind.
  destruct (render_row lib i a g) as [[g1 es1] [u|e]] eqn:E; [|eauto].
  destruct Hin as [->|Hin].
  - destruct (render_row_no_time lib i fs g Hbt) as (g' & es & e & E').
    rewrite E' in E. discriminate.
  - destruct (IH Hin (S i) g1) as (g' & es & e & ->). eauto.
Qed.

(** A refresh whose listing contains an archive without a [backup-time]
    (a dict [json.loads] returned, sortable with its default key [0])
    fails while the table is being filled, after [archive_data] was
    replaced by the sorted listing and the table resized to it: the
    previous catalog is not kept, and the only message is the
    "Unexpected error when fetching archives" warning. *)
Theorem refresh_render_failure (lib : Lib) (sys : Sys) (g : GUI) (n : string)
    (P : BackupProfile) (res : Completed) (l sorted : list json) (fs : list (string * json)) :
  g.(current_profile_name) = Some n -> truthy n = true -> assoc n g.(profiles) = Some P ->
  sys.(run) ["proxmox-backup-client"; "snapshot"; "list"; "--repository"; P.(repository);
             "--output-format"; "json"] (password_env g (config_of P)) = Ok res ->
  res.(returncode) = 0%Z -> lib.(json_loads) res.(stdout) = Ok (JArr l) ->
  sort_archives (JArr l) = Ok sorted ->
  In (JObj fs) sorted -> assoc "backup-time" fs = None ->
  exists t e,
    refresh_archives lib sys g
    = (set_state_table t (set_state_data sorted g),
       [Spawn ["proxmox-backup-client"; "snapshot"; "list"; "--repository"; P.(repository);
               "--output-format"; "json"] (password_env g (config_of P));
        Warn "Error" ("Unexpected error when fetching archives: " ++ lib.(str_exc) e)],
       Ok tt) /\
    List.length t = List.length sorted.
Proof.
  intros Hc Ht Hp Hrun Hcode Hload Hsort Hin Hbt.
  set (g1 := set_state_data sorted
               (set_state_table (set_row_count (List.length sorted) g.(archives_table)) g)).
  destruct (for_enum_fails lib sorted fs Hin Hbt 0 g1) as (g2 & es2 & e & Hf).
  destruct (table_only_for_enum lib sorted 0 g1) as (E & S & L).
  unfold state_of, effects_of in E, S, L. rewrite Hf in E, S, L. simpl in E, S, L. subst es2.
  exists g2.(archives_table), e. split.
  - unfold refresh_archives, try_except, mbind, get, lift, run_proc, emit, modify.
    unfold get_current_config. rewrite Hc, Ht. unfold getitem. rewrite Hp. simpl.
    rewrite Hrun, Hcode. simpl. rewrite Hload. cbv beta iota. rewrite Hsort. cbv beta iota.
    fold g1. rewrite Hf. simpl. rewrite S. unfold g1. destruct g; reflexivity.
  - rewrite L. unfold g1. simpl. apply length_set_row_count.
Qed.

(** ** Deleting an archive *)

Lemma try_except_unit_ok (m : M unit) (h : exc -> M unit) (g : GUI) :
  (forall e g1, exists g2 es2, h e g1 = (g2, es2, Ok tt)) ->
  exists g' es, try_except m h g = (g', es, Ok tt).
Proof.
  intros Hh. unfold try_except.
  destruct (m g) as [[g1 es1] [[]|e]]; [eauto|].
  destruct (Hh e g1) as (g2 & es2 & ->). eauto.
Qed.

Lemma refresh_never_raises (lib : Lib) (sys : Sys) (g : GUI) :
  exists g' es, refresh_archives lib sys g = (g', es, Ok tt).
Proof.
  unfold refresh_archives. apply try_except_unit_ok.
  intros e g1. unfold mbind, emit. eauto.
Qed.

(** A confirmed deletion of the selected snapshot runs
    [proxmox-backup-client snapshot forget] on it; when that succeeds
    the GUI reports it and then refreshes the catalog exactly as the
    refresh button does (the refresh handles its own errors); when it
    fails the GUI only warns with the command's error output, changes
    nothing and does not refresh. *)
Theorem delete_then_refresh (lib : Lib) (sys : Sys) (ui : UI) (g : GUI) (r : nat)
    (backup_id n : string) (P : BackupProfile) (res : Completed) :
  ui.(selected_row) = Some r -> item_text g r = Ok backup_id -> ui.(confirm_yes) = true ->
  g.(current_profile_name) = Some n -> truthy n = true -> assoc n g.(profiles) = Some P ->
  let cmd := ["proxmox-backup-client"; "snapshot"; "forget"; backup_id;
              "--repository"; P.(repository)] in
  let env := password_env g (config_of P) in
  sys.(run) cmd env = Ok res ->
  delete_archive lib sys ui g
  = if (res.(returncode) =? 0)%Z then
      let '(g', es, _) := refresh_archives lib sys g in
      (g', Spawn cmd env :: Inform "Success" "Archive deleted successfully" :: es, Ok tt)
    else
      (g, [Spawn cmd env; Warn "Error" ("Failed to delete archive: " ++ Py.strip res.(stderr))],
       Ok tt).
Proof.
  intros Hs Hi Hy Hc Ht Hp cmd env Hrun.
  destruct (refresh_never_raises lib sys g) as (g' & es & Hr).
  unfold delete_archive. rewrite Hs.
  unfold mbind, get, lift. rewrite Hi, Hy. cbn [negb].
  unfold try_except, get_current_config. rewrite Hc, Ht. unfold getitem. rewrite Hp.
  unfold run_proc, mbind, emit, lift. simpl. fold cmd env. rewrite Hrun.
  destruct (returncode res =? 0)%Z; simpl; [|reflexivity].
  rewrite Hr. reflexivity.
Qed.

(** ** Defaults of [from_dict] *)

(** [from_dict] fills in what a config entry leaves out: a source without
    [exclusions] (or with [null] or an empty list there) gets none, and a
    profile without [fingerprint] gets the empty fingerprint and without
    [backup_sources] no sources. *)
Theorem from_dict_defaults (fs : list (string * json)) (p t nm repo key : string) :
  (assoc "path" fs = Some (JStr p) -> assoc "archive_type" fs = Some (JStr t) ->
   json_truthy (match assoc "exclusions" fs with Some v => v | None => JArr [] end) = false ->
   source_from_dict (JObj fs) = Ok (mkSource p t [])) /\
  (assoc "name" fs = Some (JStr nm) -> assoc "repository" fs = Some (JStr repo) ->
   assoc "api_key" fs = Some (JStr key) ->
   assoc "fingerprint" fs = None -> assoc "backup_sources" fs = None ->
   profile_from_dict (JObj fs) = Ok (mkProfile nm repo key "" [])).
Proof.
  split.
  - intros Hp Ht He. unfold source_from_dict, json_getitem, json_get, getitem.
    rewrite Hp, Ht. simpl. rewrite He. reflexivity.
  - intros Hn Hr Hk Hf Hs. unfold profile_from_dict, json_getitem, json_get, getitem.
    rewrite Hs, Hn, Hr, Hk, Hf. reflexivity.
Qed.

(** A profile entry without [name], [repository] or [api_key] (and
    without [backup_sources], which is read first) is refused with
    [KeyError]. *)
Theorem profile_from_dict_missing_key (fs : list (string * json)) :
  assoc "backup_sources" fs = None ->
  assoc "name" fs = None \/ assoc "repository" fs = None \/ assoc "api_key" fs = None ->
  profile_from_dict (JObj fs) = Err KeyError.
Proof.
  intros Hs H. unfold profile_from_dict, json_getitem, json_get, getitem. rewrite Hs.
  cbn [json_iter sources_from_dicts bind].
  destruct (assoc "name" fs) as [vn|]; [|reflexivity]. cbn [bind].
  destruct (assoc "repository" fs) as [vr|]; [|reflexivity]. cbn [bind].
  destruct (assoc "api_key" fs) as [vk|]; [|reflexivity].
  destruct H as [H|[H|H]]; discriminate.
Qed.

(** ** Fallbacks of [load_config] *)

(** Without a config file [load_config] keeps the profiles it has, or
    creates the single profile ["Default"] (current, no message) when it
    has none.  A file that cannot be read or parsed replaces whatever
    profiles there were by ["Default"] alone, with a warning. *)
Theorem load_config_fallbacks (lib : Lib) (g : GUI) (e : exc) :
  load_config lib true (Err e) g
  = (set_state_current (Some "Default") (set_state_profiles [("Default", default_profile)] g),
     [Warn "Error" ("Failed to load config: " ++ lib.(str_exc) e)], Ok tt) /\
  load_config lib false (Err e) g
  = (match g.(profiles) with
     | [] => set_state_current (Some "Default") (set_state_profiles [("Default", default_profile)] g)
     | _ => g
     end, [], Ok tt).
Proof.
  split; [reflexivity|].
  unfold load_config, try_except, mbind, skip, ret, get, modify.
  destruct (profiles g); reflexivity.
Qed.

(** ** [format_size] *)







(** ** Instances of the properties on sample data *)

Lemma load_config_roundtrip_witness :
  load_config sample_lib true (Ok (config_data [("home", sample_profile)])) sample_gui
  = (set_state_current (Some "home") (set_state_profiles [("home", sample_profile)] sample_gui),
     [], Ok tt).
Proof.
  apply (load_config_roundtrip sample_lib sample_gui "home" sample_profile []).
  - repeat constructor. simpl. tauto.
  - repeat constructor.
Defined.

Lemma load_config_migrates_old_format_witness :
  load_config sample_lib true
    (Ok (JObj [("repository", JStr "backup@pbs@host:store"); ("api_key", JStr "secret-key")]))
    sample_gui
  = (set_state_current (Some "Default")
       (set_state_profiles
          [("Default", mkProfile "Default" "backup@pbs@host:store" "secret-key" "" [])]
          sample_gui), [], Ok tt).
Proof.
  apply (load_config_migrates_old_format sample_lib _ "backup@pbs@host:store" "secret-key" []);
    [discriminate|reflexivity..].
Defined.

Lemma save_settings_updates_current_witness :
  exists ps',
    save_settings sample_lib sample_gui
    = (set_state_profiles ps' sample_gui, save_effects sample_lib ps', Ok tt) /\
    map fst ps' = map fst sample_gui.(profiles) /\
    assoc "home" ps' = Some (mkProfile sample_profile.(name) sample_gui.(repo_edit)
                               sample_gui.(api_edit) sample_gui.(fingerprint_edit)
                               sample_profile.(backup_sources)) /\
    (forall k, k <> "home" -> assoc k ps' = assoc k sample_gui.(profiles)).
Proof. apply save_settings_updates_current; [reflexivity|discriminate|reflexivity]. Defined.

Lemma save_settings_missing_profile_witness :
  save_settings sample_lib (set_state_current (Some "work") sample_gui)
  = (set_state_current (Some "work") sample_gui,
     [Warn "Error" ("Failed to save settings: " ++ sample_lib.(str_exc) KeyError)], Ok tt).
Proof. apply (save_settings_missing_profile _ _ "work"); [reflexivity|discriminate|reflexivity]. Defined.

Lemma add_source_appends_witness :
  exists ps',
    add_source sample_lib "/etc" "pxar" sample_gui =
      (set_state_row (-1) (set_state_profiles ps' sample_gui), save_effects sample_lib ps', Ok tt) /\
    assoc "home" ps' = Some (mkProfile sample_profile.(name) sample_gui.(repo_edit)
                               sample_gui.(api_edit) sample_gui.(fingerprint_edit)
                               (app sample_profile.(backup_sources) [mkSource "/etc" "pxar" []])) /\
    map fst ps' = map fst sample_gui.(profiles) /\
    (forall k, k <> "home" -> assoc k ps' = assoc k sample_gui.(profiles)).
Proof.
  apply add_source_appends; [reflexivity|discriminate|reflexivity|discriminate].
Defined.

Lemma add_then_remove_source_witness :
  state_of ((add_source sample_lib "/etc" "pxar" ;;;
             modify (set_state_row (Z.of_nat (List.length sample_profile.(backup_sources)))) ;;;
             remove_source sample_lib) sample_gui)
  = set_state_row (-1)
      (set_state_profiles (setitem sample_gui.(profiles) "home"
         (with_settings sample_gui sample_profile sample_profile.(backup_sources))) sample_gui).
Proof.
  apply add_then_remove_source; [reflexivity|discriminate|reflexivity|discriminate].
Defined.

Lemma refresh_without_profile_witness :
  refresh_archives sample_lib (sample_sys 0) (set_state_current None sample_gui)
  = (set_state_current None sample_gui,
     [Warn "Error" ("Unexpected error when fetching archives: " ++ sample_lib.(str_exc) KeyError)],
     Ok tt).
Proof. apply refresh_without_profile. reflexivity. Defined.

Lemma backup_without_profile_witness :
  worker_run sample_lib (sample_sys 0) 10 (set_state_current (Some "") sample_gui)
  = (set_state_current (Some "") sample_gui,
     [Emit (Finished false ("Error: " ++ sample_lib.(str_exc) KeyError))], Ok tt).
Proof. apply backup_without_profile. reflexivity. Defined.

Lemma archive_actions_cancelled_witness :
  let ui := mkUI (Some 0) "" (fun l i => nth_error l i) false None None in
  (ui.(dir_choice) = "" -> restore_archive sample_lib (sample_sys 0) ui 10 sample_refreshed
                           = (sample_refreshed, [], Ok tt)) /\
  (ui.(dir_choice) = "" -> truthy_opt sample_refreshed.(current_mount) = false ->
     mount_archive sample_lib (sample_sys 0) ui sample_refreshed = (sample_refreshed, [], Ok tt)) /\
  (ui.(confirm_yes) = false -> delete_archive sample_lib (sample_sys 0) ui sample_refreshed
                               = (sample_refreshed, [], Ok tt)).
Proof.
  intros ui. apply (archive_actions_cancelled _ _ _ _ _ 0 "host/pc/1970-01-01T00:00:00Z"
                      (Some (config_of sample_profile)));
    [reflexivity|vm_compute; reflexivity|vm_compute; reflexivity].
Defined.

Lemma validate_config_current_witness :
  let ok := negb (match sample_profile.(backup_sources) with [] => true | _ => false end)
            && truthy sample_profile.(repository) && truthy sample_profile.(api_key) in
  state_of (validate_config true sample_gui) = sample_gui /\
  snd (validate_config true sample_gui) = Ok ok /\
  (List.length (effects_of (validate_config true sample_gui))
   = if true && negb ok then 1 else 0)%nat.
Proof. apply (validate_config_current true sample_gui "home"); [reflexivity|discriminate|reflexivity]. Defined.

Lemma pxar_candidates_listed_witness :
  Forall (fun f => Py.endswith f ".pxar" = true /\
                   exists file, In file (map (fun s => JObj [("filename", JStr s)])
                                           ["a.pxar.didx"; "b.img.fidx"]) /\
                                json_getitem file "filename" = Ok (JStr (f ++ ".didx")))
    ["a.pxar"].
Proof. apply pxar_candidates_listed. vm_compute. reflexivity. Defined.

Lemma refresh_render_failure_witness :
  exists t e,
    refresh_archives sample_untimed_lib (sample_sys 0) sample_gui
    = (set_state_table t
         (set_state_data [JObj [("backup-type", JStr "host"); ("backup-id", JStr "pc")]] sample_gui),
       [Spawn ["proxmox-backup-client"; "snapshot"; "list"; "--repository";
               sample_profile.(repository); "--output-format"; "json"]
              (password_env sample_gui (config_of sample_profile));
        Warn "Error" ("Unexpected error when fetching archives: "
                      ++ sample_untimed_lib.(str_exc) e)],
       Ok tt) /\
    List.length t = List.length [JObj [("backup-type", JStr "host"); ("backup-id", JStr "pc")]].
Proof.
  apply (refresh_render_failure _ _ _ "home" sample_profile (mkCompleted 0 "snapshots" "err")
           [JObj [("backup-type", JStr "host"); ("backup-id", JStr "pc")]] _
           [("backup-type", JStr "host"); ("backup-id", JStr "pc")]);
    [reflexivity..|left; reflexivity|reflexivity].
Defined.

Lemma delete_then_refresh_witness :
  let cmd := ["proxmox-backup-client"; "snapshot"; "forget"; "host/pc/1970-01-01T00:00:00Z";
              "--repository"; sample_profile.(repository)] in
  let env := password_env sample_refreshed (config_of sample_profile) in
  delete_archive sample_lib (sample_sys 0) sample_ui sample_refreshed
  = let '(g', es, _) := refresh_archives sample_lib (sample_sys 0) sample_refreshed in
    (g', Spawn cmd env :: Inform "Success" "Archive deleted successfully" :: es, Ok tt).
Proof.
  apply (delete_then_refresh _ _ _ _ 0 _ "home" sample_profile (mkCompleted 0 "?" "err"));
    [reflexivity|vm_compute; reflexivity|reflexivity|vm_compute; reflexivity..].
Defined.

Lemma profile_from_dict_missing_key_witness :
  profile_from_dict (JObj [("name", JStr "home"); ("api_key", JStr "secret-key")]) = Err KeyError.
Proof. apply profile_from_dict_missing_key; [reflexivity|right; left; reflexivity]. Defined.

